(** * merch-design-enhancer: a shallow embedding and its verified properties

    The definitions follow the TypeScript sources:

    - [MimeSniff], [ImageProcessor]  src/utils/image-processor.ts
      (detectMimeType, normalizeImageInput);
    - [PromptBuilder]                src/prompts/prompt-builder.ts;
    - [Providers]                    src/providers/ai-provider.ts
      (the four adapters and the factory);
    - [Enhancer]                     src/index.ts, src/types/index.ts.

    [JsString], [Base64] and [Js] model the pieces of the JavaScript runtime
    the sources call.  Asynchronous code is modelled by explicit state
    passing: a computation receives the platform it runs on (base64 decoder,
    file system, remote services) and the trace of effects performed so far,
    and returns an outcome together with the extended trace.  The theorems
    come after all definitions, one module of facts per component. *)

From Stdlib Require Import List Bool Arith NArith ZArith QArith Lia.
From Stdlib.Strings Require Import String Ascii Byte.
Import ListNotations.
Close Scope Q_scope.
Local Open Scope string_scope.
Local Open Scope list_scope.

(* ================================================================== *)
(** * Buffers *)

(** A Node [Buffer] is a sequence of octets. *)
Definition Buffer : Type := list byte.

(** [buffer[i] === b]: indexing past the end yields [undefined], which is
    strictly equal to no number. *)
Definition byte_is (buffer : Buffer) (i : nat) (b : byte) : bool :=
  match nth_error buffer i with
  | Some x => Byte.eqb x b
  | None => false
  end.

(* ================================================================== *)
(** * detectMimeType (src/utils/image-processor.ts) *)

Module MimeSniff.

Definition detectMimeType (buffer : Buffer) : string :=
  if byte_is buffer 0 xff && byte_is buffer 1 xd8 then
    "image/jpeg"
  else if byte_is buffer 0 x89 && byte_is buffer 1 x50
          && byte_is buffer 2 x4e && byte_is buffer 3 x47 then
    "image/png"
  else if byte_is buffer 0 x47 && byte_is buffer 1 x49
          && byte_is buffer 2 x46 then
    "image/gif"
  else if byte_is buffer 0 x52 && byte_is buffer 1 x49
          && byte_is buffer 2 x46 && byte_is buffer 3 x46 then
    "image/webp"
  else
    "image/png".

(** The specification's reading: a priority-ordered table of magic numbers,
    the first signature that is a prefix of the buffer wins. *)
Definition signatures : list (list byte * string) :=
  [ ([xff; xd8],           "image/jpeg");
    ([x89; x50; x4e; x47], "image/png");
    ([x47; x49; x46],      "image/gif");
    ([x52; x49; x46; x46], "image/webp") ].

Fixpoint starts_with (buffer : Buffer) (sig : list byte) {struct sig} : bool :=
  match sig, buffer with
  | [], _ => true
  | _ :: _, [] => false
  | s :: sig', x :: buffer' => Byte.eqb x s && starts_with buffer' sig'
  end.

Definition first_signature (buffer : Buffer) : string :=
  match find (fun entry => starts_with buffer (fst entry)) signatures with
  | Some entry => snd entry
  | None => "image/png"
  end.

Definition known_mime (m : string) : Prop :=
  m = "image/jpeg" \/ m = "image/png" \/ m = "image/gif" \/ m = "image/webp".

End MimeSniff.

(* ================================================================== *)
(** * JavaScript strings *)

Module JsString.

(** [s.includes(pat)] *)
Fixpoint includes (pat s : string) : bool :=
  prefix pat s ||
  match s with
  | EmptyString => false
  | String _ s' => includes pat s'
  end.

(** Number of positions of [s] at which [pat] occurs. *)
Fixpoint occurrences (pat s : string) : nat :=
  (if prefix pat s then 1 else 0) +
  match s with
  | EmptyString => 0
  | String _ s' => occurrences pat s'
  end.

(** [s.split(sep)] for a one-character separator. *)
Fixpoint split (sep : ascii) (s : string) : list string :=
  match s with
  | EmptyString => [EmptyString]
  | String c s' =>
      if Ascii.eqb c sep then EmptyString :: split sep s'
      else match split sep s' with
           | h :: t => String c h :: t
           | [] => [String c EmptyString]
           end
  end.

(** Truthiness of a string: only the empty string is falsy. *)
Definition truthy_string (s : string) : bool :=
  negb (String.eqb s "").

(** Truthiness of an optional string ([undefined] is falsy). *)
Definition truthy_opt (s : option string) : bool :=
  match s with
  | Some s => truthy_string s
  | None => false
  end.

End JsString.

(* ================================================================== *)
(** * Base64 as the Node runtime implements it

    [Buffer.prototype.toString('base64')] and [Buffer.from(s, 'base64')] are
    platform functions.  The encoder emits the standard alphabet with [=]
    padding.  The decoder is the lenient one of Node: characters outside the
    alphabet are skipped, the URL-safe characters [-] and [_] are accepted,
    decoding stops at the first [=], and no string makes it throw. *)

Module Base64.

Definition alphabet : string :=
  "ABCDEFGHIJKLMNOPQRSTUVWXYZabcdefghijklmnopqrstuvwxyz0123456789+/".

Definition byte_of_N (n : N) : byte :=
  match Byte.of_N (n mod 256) with
  | Some b => b
  | None => x00
  end.

Definition char_of_sextet (n : N) : ascii :=
  match String.get (N.to_nat n) alphabet with
  | Some c => c
  | None => "="%char
  end.

Fixpoint index_of (c : ascii) (s : string) (i : N) : option N :=
  match s with
  | EmptyString => None
  | String c' s' => if Ascii.eqb c c' then Some i else index_of c s' (N.succ i)
  end.

Definition unbase64 (c : ascii) : option N :=
  if Ascii.eqb c "-" then Some 62%N
  else if Ascii.eqb c "_" then Some 63%N
  else index_of c alphabet 0%N.

Local Open Scope N_scope.

Fixpoint encode (bs : Buffer) : string :=
  match bs with
  | [] => EmptyString
  | [a] =>
      let a := Byte.to_N a in
      String (char_of_sextet (a / 4))
        (String (char_of_sextet ((a mod 4) * 16)) "==")
  | [a; b] =>
      let a := Byte.to_N a in
      let b := Byte.to_N b in
      String (char_of_sextet (a / 4))
        (String (char_of_sextet ((a mod 4) * 16 + b / 16))
           (String (char_of_sextet ((b mod 16) * 4)) "="))
  | a :: b :: c :: rest =>
      let a := Byte.to_N a in
      let b := Byte.to_N b in
      let c := Byte.to_N c in
      String (char_of_sextet (a / 4))
        (String (char_of_sextet ((a mod 4) * 16 + b / 16))
           (String (char_of_sextet ((b mod 16) * 4 + c / 64))
              (String (char_of_sextet (c mod 64)) (encode rest))))
  end.

(** The legal sextets of a string, in order, up to the first [=]. *)
Fixpoint sextets (s : string) : list N :=
  match s with
  | EmptyString => []
  | String c s' =>
      if Ascii.eqb c "=" then []
      else match unbase64 c with
           | Some v => v :: sextets s'
           | None => sextets s'
           end
  end.

Fixpoint bytes_of_sextets (l : list N) : Buffer :=
  match l with
  | s1 :: s2 :: s3 :: s4 :: rest =>
      byte_of_N (s1 * 4 + s2 / 16)
      :: byte_of_N ((s2 mod 16) * 16 + s3 / 4)
      :: byte_of_N ((s3 mod 4) * 64 + s4)
      :: bytes_of_sextets rest
  | [s1; s2; s3] =>
      [byte_of_N (s1 * 4 + s2 / 16); byte_of_N ((s2 mod 16) * 16 + s3 / 4)]
  | [s1; s2] =>
      [byte_of_N (s1 * 4 + s2 / 16)]
  | _ => []
  end.

Definition decode (s : string) : Buffer :=
  bytes_of_sextets (sextets s).

(** Characters an encoder can produce. *)
Definition encoded_char (c : ascii) : bool :=
  match index_of c alphabet 0 with
  | Some _ => true
  | None => Ascii.eqb c "="
  end.

Fixpoint all_chars (p : ascii -> bool) (s : string) : bool :=
  match s with
  | EmptyString => true
  | String c s' => p c && all_chars p s'
  end.

Definition well_formed (s : string) : bool := all_chars encoded_char s.

(** Decoding the character of a sextet gives the sextet back, and that
    character is neither padding nor outside the alphabet. *)
Definition sextet_ok (n : N) : bool :=
  match unbase64 (char_of_sextet n) with
  | Some m => N.eqb m n
  | None => false
  end
  && negb (Ascii.eqb (char_of_sextet n) "=")
  && encoded_char (char_of_sextet n).

End Base64.

(* ================================================================== *)
(** * JavaScript values and exceptions *)

(** Values thrown by the code or by the platform underneath it. *)
Inductive exn : Type :=
| Error (message : string)        (* [throw new Error(message)] *)
| TypeError (message : string)    (* raised by the runtime *)
| SyntaxError (message : string)  (* [response.json()] on a non-JSON body *)
| SystemError (code : string).    (* rejected file-system or network call *)

Module Js.

#[local] Set Warnings "-register-all".


(** Parsed JSON; [undefined] is [None] of [option value]. *)
Inductive value : Type :=
| Null
| Bool (b : bool)
| Num (q : Q)
| Str (s : string)
| Arr (items : list value)
| Obj (fields : list (string * value)).

Definition undefined : option value := None.

(** Own property of an object literal; a repeated key keeps its last value. *)
Fixpoint lookup (key : string) (fields : list (string * value)) : option value :=
  match fields with
  | [] => None
  | (k, v) :: rest =>
      match lookup key rest with
      | Some v' => Some v'
      | None => if String.eqb key k then Some v else None
      end
  end.

Definition num_of_nat (n : nat) : value := Num (inject_Z (Z.of_nat n)).

(** [v.key]: reading a property of [undefined] or [null] throws. *)
Definition prop (v : option value) (key : string) : exn + option value :=
  match v with
  | None => inl (TypeError ("Cannot read properties of undefined (reading '" ++ key ++ "')"))
  | Some Null => inl (TypeError ("Cannot read properties of null (reading '" ++ key ++ "')"))
  | Some (Obj fields) => inr (lookup key fields)
  | Some (Arr items) =>
      if String.eqb key "length" then inr (Some (num_of_nat (List.length items)))
      else inr None
  | Some (Str s) =>
      if String.eqb key "length" then inr (Some (num_of_nat (String.length s)))
      else inr None
  | Some _ => inr None
  end.

(** [v?.key] *)
Definition opt_prop (v : option value) (key : string) : exn + option value :=
  match v with
  | None | Some Null => inr None
  | _ => prop v key
  end.

(** [v[0]] *)
Definition first (v : option value) : exn + option value :=
  match v with
  | None => inl (TypeError "Cannot read properties of undefined (reading '0')")
  | Some Null => inl (TypeError "Cannot read properties of null (reading '0')")
  | Some (Arr items) => inr (nth_error items 0)
  | Some (Str s) =>
      match s with
      | EmptyString => inr None
      | String c _ => inr (Some (Str (String c EmptyString)))
      end
  | Some (Obj fields) => inr (lookup "0" fields)
  | Some _ => inr None
  end.

Definition truthy (v : option value) : bool :=
  match v with
  | None | Some Null => false
  | Some (Bool b) => b
  | Some (Num q) => negb (Qeq_bool q 0%Q)
  | Some (Str s) => JsString.truthy_string s
  | Some (Arr _) | Some (Obj _) => true
  end.

(** [v === 'literal'] *)
Definition is_string (v : option value) (literal : string) : bool :=
  match v with
  | Some (Str s) => String.eqb s literal
  | _ => false
  end.

(** [v === 0] *)
Definition is_zero (v : option value) : bool :=
  match v with
  | Some (Num q) => Qeq_bool q 0%Q
  | _ => false
  end.

(** [a || b] *)
Definition or_else (a : option value) (b : value) : option value :=
  if truthy a then a else Some b.

End Js.

(* ================================================================== *)
(** * HTTP, effects and the platform *)

Inductive FormValue : Type :=
| FormText (text : string)
| FormBlob (content : Buffer) (type filename : string).

Inductive Body : Type :=
| NoBody
| TextBody (text : string)
| FormData (fields : list (string * FormValue)).

Record Request : Type := mkRequest {
  url : string;
  method : string;
  headers : list (string * string);
  body : Body
}.

(** A response, with its body as each of the readers used in the source
    sees it: [json()] rejects when [body_json] is [None]. *)
Record Response : Type := mkResponse {
  ok : bool;
  body_json : option Js.value;
  body_text : string;
  body_bytes : Buffer
}.

Inductive Event : Type :=
| EvReadFile (path : string)
| EvFetch (request : Request)
| EvSleep (milliseconds : N).

(** The effects performed so far, most recent first. *)
Definition Trace : Type := list Event.

(** What the code runs on.  The remote services answer as a function of the
    whole interaction so far, so a job's status may change between polls. *)
Record Platform : Type := mkPlatform {
  Buffer_from_base64 : option Js.value -> exn + Buffer;
  fs_readFile : string -> exn + Buffer;
  remote : Trace -> Request -> exn + Response;
  JSON_stringify : Js.value -> string;
  ToString_object : Js.value -> string
}.

(** Outcome of awaiting a promise; [Pending] is a promise that has not
    settled within the number of loop iterations explored. *)
Inductive outcome (A : Type) : Type :=
| Resolved (a : A)
| Rejected (e : exn)
| Pending.
Arguments Resolved {A} a.
Arguments Rejected {A} e.
Arguments Pending {A}.

Definition M (A : Type) : Type := Platform -> Trace -> outcome A * Trace.

Definition ret {A} (a : A) : M A := fun _ t => (Resolved a, t).
Definition throw {A} (e : exn) : M A := fun _ t => (Rejected e, t).
Definition pending {A} : M A := fun _ t => (Pending, t).

Definition bind {A B} (m : M A) (k : A -> M B) : M B :=
  fun P t =>
    match m P t with
    | (Resolved a, t') => k a P t'
    | (Rejected e, t') => (Rejected e, t')
    | (Pending, t') => (Pending, t')
    end.

Notation "x <- m ;; k" := (bind m (fun x => k))
  (at level 61, m at next level, right associativity).
Notation "m ;;; k" := (bind m (fun _ => k))
  (at level 61, right associativity).

(** A synchronous step that may throw. *)
Definition lift {A} (r : exn + A) : M A :=
  match r with
  | inr a => ret a
  | inl e => throw e
  end.

Definition platform : M Platform := fun P t => (Resolved P, t).

Definition readFile (path : string) : M Buffer :=
  fun P t =>
    match fs_readFile P path with
    | inr b => (Resolved b, EvReadFile path :: t)
    | inl e => (Rejected e, EvReadFile path :: t)
    end.

Definition fetch (request : Request) : M Response :=
  fun P t =>
    match remote P t request with
    | inr r => (Resolved r, EvFetch request :: t)
    | inl e => (Rejected e, EvFetch request :: t)
    end.

(** [await new Promise((resolve) => setTimeout(resolve, ms))] *)
Definition sleep (milliseconds : N) : M unit :=
  fun _ t => (Resolved tt, EvSleep milliseconds :: t).

(** [await response.json()] *)
Definition json (r : Response) : M Js.value :=
  match body_json r with
  | Some v => ret v
  | None => throw (SyntaxError "Unexpected token in JSON")
  end.

(** [await response.json().catch(() => ({ error: 'Unknown error' }))] *)
Definition json_or_unknown (r : Response) : Js.value :=
  match body_json r with
  | Some v => v
  | None => Js.Obj [("error", Js.Str "Unknown error")]
  end.

(** String conversion in a template literal or a URL argument. *)
Definition ToString (P : Platform) (v : option Js.value) : string :=
  match v with
  | None => "undefined"
  | Some Js.Null => "null"
  | Some (Js.Bool true) => "true"
  | Some (Js.Bool false) => "false"
  | Some (Js.Str s) => s
  | Some v => ToString_object P v
  end.

(** Number of network requests in a trace. *)
Definition network_calls (t : Trace) : nat :=
  List.length (filter (fun e => match e with EvFetch _ => true | _ => false end) t).

(** The Node runtime.  [Buffer.from(v, 'base64')] never rejects a string;
    for [undefined] and [null] it throws the TypeError below.  The sources
    pass it a string or [undefined]; other values (Node converts arrays and
    array-like objects, and rejects the rest with a message naming the type
    received) are rejected here with the message up to its first sentence. *)
Definition not_a_string : string :=
  "The first argument must be of type string or an instance of Buffer, ArrayBuffer, or Array or an Array-like Object.".

Definition node_Buffer_from_base64 (v : option Js.value) : exn + Buffer :=
  match v with
  | Some (Js.Str s) => inr (Base64.decode s)
  | None => inl (TypeError (not_a_string ++ " Received undefined"))
  | Some Js.Null => inl (TypeError (not_a_string ++ " Received null"))
  | Some _ => inl (TypeError not_a_string)
  end.

Definition node_platform (readFile : string -> exn + Buffer)
    (remote : Trace -> Request -> exn + Response)
    (stringify to_string : Js.value -> string) : Platform :=
  {| Buffer_from_base64 := node_Buffer_from_base64;
     fs_readFile := readFile;
     remote := remote;
     JSON_stringify := stringify;
     ToString_object := to_string |}.

(** A file system given as a list of files; any other path does not exist. *)
Fixpoint files (contents : list (string * Buffer)) (path : string) : exn + Buffer :=
  match contents with
  | [] => inl (SystemError "ENOENT")
  | (p, b) :: rest => if String.eqb path p then inr b else files rest path
  end.

(** No network. *)
Definition offline (_ : Trace) (_ : Request) : exn + Response :=
  inl (SystemError "ENOTFOUND").

Definition no_rendering (_ : Js.value) : string := "[object Object]".

(** Two small platforms used as concrete inputs: Node with an empty disk,
    and Node with one file in the working directory. *)
Definition node0 : Platform :=
  node_platform (files []) offline no_rendering no_rendering.


(* ================================================================== *)
(** * normalizeImageInput (src/utils/image-processor.ts) *)

Module ImageProcessor.

(** [image: Buffer | string].  [ImgOther] stands for a run-time value that is
    neither, which the declared type excludes and the final [throw] of the
    function anticipates. *)
Inductive ImageInput : Type :=
| ImgBuffer (b : Buffer)
| ImgString (s : string)
| ImgOther.

Definition invalid_input_message : string :=
  "Invalid image input format. Expected Buffer, base64 string, or file path.".

Definition has_path_separator (image : string) : bool :=
  JsString.includes "/" image || JsString.includes "\" image.

(** [image.split(',')[1]] *)
Definition data_uri_payload (image : string) : option Js.value :=
  option_map Js.Str (nth_error (JsString.split "," image) 1).

Definition normalizeImageInput (image : ImageInput) : M Buffer :=
  match image with
  | ImgBuffer b => ret b
  | ImgString s =>
      if prefix "data:" s then
        P <- platform ;;
        lift (Buffer_from_base64 P (data_uri_payload s))
      else
        P <- platform ;;
        let decoded :=
          if negb (JsString.includes "/" s) && negb (JsString.includes "\" s) then
            match Buffer_from_base64 P (Some (Js.Str s)) with
            | inr b => Some b
            | inl _ => None   (* If base64 decode fails, treat as file path *)
            end
          else None in
        match decoded with
        | Some b => ret b
        | None => readFile s
        end
  | ImgOther => throw (Error invalid_input_message)
  end.

(** The bare-text rule as the specification words it: decode the text as
    base64, and read it as a file path when the decoder throws. *)
Definition base64_else_file (s : string) : M Buffer :=
  P <- platform ;;
  match Buffer_from_base64 P (Some (Js.Str s)) with
  | inr b => ret b
  | inl _ => readFile s
  end.

Definition detectMimeType := MimeSniff.detectMimeType.

(** A data URI: the media-type part, the comma, the base64 payload. *)
Definition data_uri (header : string) (content : Buffer) : string :=
  "data:" ++ header ++ "," ++ Base64.encode content.

End ImageProcessor.

(* ================================================================== *)
(** * ProductType (src/types/product-type.ts) *)

(** The ten members of the string enum.  [UNKNOWN] stands for a run-time tag
    that is neither a value of the enum nor the name of a member every
    object inherits (such as "constructor"): the declared type excludes it,
    and the [default] arms of the builder anticipate it.  For an inherited
    name the lookup [names[tag]] yields that member instead of [undefined];
    such tags are not represented. *)
Inductive ProductType : Type :=
| HOODIE | FACECAP | SHIRT | MUG | STICKER_PAD
| TANK_TOP | LONG_SLEEVE | SWEATSHIRT | JACKET | TOTE_BAG
| UNKNOWN (tag : string).

Definition enum_members : list ProductType :=
  [HOODIE; FACECAP; SHIRT; MUG; STICKER_PAD;
   TANK_TOP; LONG_SLEEVE; SWEATSHIRT; JACKET; TOTE_BAG].

(* ================================================================== *)
(** * PromptBuilder (src/prompts/prompt-builder.ts) *)

Module PromptBuilder.
Import JsString.

(** [names[productType] || 'product'] *)
Definition getProductName (productType : ProductType) : string :=
  match productType with
  | HOODIE => "hoodie"
  | FACECAP => "face cap or baseball cap"
  | SHIRT => "t-shirt or shirt"
  | MUG => "ceramic mug"
  | STICKER_PAD => "sticker pad or notepad"
  | TANK_TOP => "tank top"
  | LONG_SLEEVE => "long sleeve shirt"
  | SWEATSHIRT => "sweatshirt"
  | JACKET => "jacket"
  | TOTE_BAG => "tote bag"
  | UNKNOWN _ => "product"
  end.

Definition design_preservation_clause : string :=
  " The design on the product must remain exactly as shown in the reference image - do not alter, modify, or change the design in any way. The design should be clearly visible and prominent. Remember it will be used as the sales image for the product.".

Definition color_fidelity_clause : string :=
  ", especially the specified color".

Definition buildClothingPrompt (productType : ProductType) (colorDescription : string) (designPreservation : string) : string :=
  let productName := getProductName productType in
  "Create a high-quality, professional product photography image of a "
  ++ productName
  ++ colorDescription
  ++ " hanging from an elegant golden or wooden hanger in a luxury boutique setting. 

Requirements:
- The "
  ++ productName
  ++ " should be displayed hanging from a premium golden or wooden hanger with a slight, natural tilt (approximately 15-20 degrees) that showcases the product beautifully
- The focus should be entirely on the "
  ++ productName
  ++ ", which should appear as if it's made from high-quality fabric
- The background should suggest an upscale boutique environment - think soft, professional lighting, elegant textures, and a sophisticated atmosphere
- The image should look like professional product photography that you would see in a high-end fashion catalog or boutique website
- The lighting should be soft and flattering, highlighting the product's details, fabric texture, and fit
- The "
  ++ productName
  ++ " should appear three-dimensional and realistic, as if it's an actual physical garment
- The overall aesthetic should be clean, minimal, and luxurious"
  ++ designPreservation
  ++ "
- The hanger should be visible but not distract from the product
- The image should have a shallow depth of field, keeping the product in sharp focus while the background is slightly blurred
- Show the fabric texture and quality - it should look premium and well-made
- Color accuracy is important - maintain the exact colors of the product"
  ++ (if truthy_string colorDescription then color_fidelity_clause else "")
  ++ "

Style: Professional product photography, boutique aesthetic, luxury fashion catalog, high-end e-commerce, clean and minimal, sophisticated lighting, realistic fabric texture, premium quality.".

Definition buildCapPrompt (colorDescription : string) (designPreservation : string) : string :=
  "Create a high-quality, professional product photography image of a face cap or baseball cap"
  ++ colorDescription
  ++ " displayed on an elegant cap stand or mannequin head in a luxury boutique setting.

Requirements:
- The cap should be displayed on a premium cap stand, wooden display head, or elegant mannequin head that showcases the cap beautifully
- Position the cap at a slight angle (approximately 15-20 degrees) to show both the front design and the overall shape
- The focus should be entirely on the cap, which should appear as if it's made from high-quality materials
- The background should suggest an upscale boutique or lifestyle store environment - think soft, professional lighting, elegant textures, and a sophisticated atmosphere
- The image should look like professional product photography that you would see in a high-end sports or lifestyle brand catalog
- The lighting should be soft and flattering, highlighting the cap's details, material texture, and structure
- The cap should appear three-dimensional and realistic, as if it's an actual physical item
- The overall aesthetic should be clean, minimal, and luxurious"
  ++ designPreservation
  ++ "
- The display stand should be visible but not distract from the cap
- The image should have a shallow depth of field, keeping the cap in sharp focus while the background is slightly blurred
- Show the material quality - it should look premium and well-constructed
- Color accuracy is important - maintain the exact colors of the cap"
  ++ (if truthy_string colorDescription then color_fidelity_clause else "")
  ++ "

Style: Professional product photography, boutique aesthetic, luxury sports/lifestyle catalog, high-end e-commerce, clean and minimal, sophisticated lighting, realistic material texture, premium quality.".

Definition buildMugPrompt (colorDescription : string) (designPreservation : string) : string :=
  "Create a high-quality, professional product photography image of a ceramic mug"
  ++ colorDescription
  ++ " displayed on an elegant surface in a luxury boutique or modern home setting.

Requirements:
- The mug should be displayed on a beautiful surface such as a marble countertop, wooden table, or elegant ceramic coaster in a sophisticated setting
- Position the mug at a slight angle (approximately 20-30 degrees) to showcase both the front design and the overall shape of the mug
- The focus should be entirely on the mug, which should appear as if it's made from high-quality ceramic
- The background should suggest an upscale boutique, modern kitchen, or lifestyle store environment - think soft, professional lighting, elegant textures, and a sophisticated atmosphere
- The image should look like professional product photography that you would see in a high-end home goods catalog or boutique website
- The lighting should be soft and flattering, highlighting the mug's design, ceramic texture, and shape
- The mug should appear three-dimensional and realistic, as if it's an actual physical item
- The overall aesthetic should be clean, minimal, and luxurious"
  ++ designPreservation
  ++ "
- The surface should complement the mug without distracting from it - consider adding subtle elements like natural light, soft shadows, or minimal props
- The image should have a shallow depth of field, keeping the mug in sharp focus while the background is slightly blurred
- Show the ceramic quality - it should look premium and well-crafted
- Color accuracy is important - maintain the exact colors of the mug"
  ++ (if truthy_string colorDescription then color_fidelity_clause else "")
  ++ "

Style: Professional product photography, boutique aesthetic, luxury home goods catalog, high-end e-commerce, clean and minimal, sophisticated lighting, realistic ceramic texture, premium quality, lifestyle photography.".

Definition buildStickerPadPrompt (colorDescription : string) (designPreservation : string) : string :=
  "Create a high-quality, professional product photography image of a sticker pad or notepad"
  ++ colorDescription
  ++ " displayed on an elegant desk or table surface in a luxury boutique or modern workspace setting.

Requirements:
- The sticker pad should be displayed on a beautiful surface such as a wooden desk, marble table, or elegant workspace setting
- Position the pad at a slight angle (approximately 15-25 degrees) to showcase the cover design and give it a natural, inviting appearance
- The focus should be entirely on the sticker pad, which should appear as if it's made from high-quality paper and materials
- The background should suggest an upscale boutique, modern office, or lifestyle store environment - think soft, professional lighting, elegant textures, and a sophisticated atmosphere
- The image should look like professional product photography that you would see in a high-end stationery or office supplies catalog
- The lighting should be soft and flattering, highlighting the pad's design, paper texture, and quality
- The sticker pad should appear three-dimensional and realistic, as if it's an actual physical item
- The overall aesthetic should be clean, minimal, and luxurious"
  ++ designPreservation
  ++ "
- The surface should complement the pad without distracting from it - consider adding subtle elements like natural light, soft shadows, or minimal office/desk props
- The image should have a shallow depth of field, keeping the sticker pad in sharp focus while the background is slightly blurred
- Show the paper quality - it should look premium and well-made
- Color accuracy is important - maintain the exact colors of the sticker pad"
  ++ (if truthy_string colorDescription then color_fidelity_clause else "")
  ++ "

Style: Professional product photography, boutique aesthetic, luxury stationery catalog, high-end e-commerce, clean and minimal, sophisticated lighting, realistic paper texture, premium quality, workspace lifestyle photography.".

Definition buildToteBagPrompt (colorDescription : string) (designPreservation : string) : string :=
  "Create a high-quality, professional product photography image of a tote bag"
  ++ colorDescription
  ++ " displayed hanging from an elegant hook or displayed on a surface in a luxury boutique setting.

Requirements:
- The tote bag should be displayed hanging from a premium golden or wooden hook, or elegantly arranged on a beautiful surface to showcase its shape and design
- Position the bag with a slight natural drape or fold to show both the front design and the overall structure
- The focus should be entirely on the tote bag, which should appear as if it's made from high-quality fabric or material
- The background should suggest an upscale boutique, modern retail, or lifestyle store environment - think soft, professional lighting, elegant textures, and a sophisticated atmosphere
- The image should look like professional product photography that you would see in a high-end fashion or lifestyle brand catalog
- The lighting should be soft and flattering, highlighting the bag's design, material texture, and structure
- The tote bag should appear three-dimensional and realistic, as if it's an actual physical item
- The overall aesthetic should be clean, minimal, and luxurious"
  ++ designPreservation
  ++ "
- The hook or surface should be visible but not distract from the bag
- The image should have a shallow depth of field, keeping the tote bag in sharp focus while the background is slightly blurred
- Show the material quality - it should look premium and well-constructed
- Color accuracy is important - maintain the exact colors of the bag"
  ++ (if truthy_string colorDescription then color_fidelity_clause else "")
  ++ "

Style: Professional product photography, boutique aesthetic, luxury fashion/lifestyle catalog, high-end e-commerce, clean and minimal, sophisticated lighting, realistic fabric/material texture, premium quality.".

Definition buildGenericPrompt (productType : ProductType) (colorDescription : string) (designPreservation : string) : string :=
  let productName := getProductName productType in
  "Create a high-quality, professional product photography image of a "
  ++ productName
  ++ colorDescription
  ++ " displayed in a luxury boutique setting.

Requirements:
- The "
  ++ productName
  ++ " should be displayed in an elegant and natural way that showcases the product beautifully
- The focus should be entirely on the "
  ++ productName
  ++ ", which should appear as if it's made from high-quality materials
- The background should suggest an upscale boutique environment - think soft, professional lighting, elegant textures, and a sophisticated atmosphere
- The image should look like professional product photography that you would see in a high-end catalog or boutique website
- The lighting should be soft and flattering, highlighting the product's details and texture
- The "
  ++ productName
  ++ " should appear three-dimensional and realistic, as if it's an actual physical item
- The overall aesthetic should be clean, minimal, and luxurious"
  ++ designPreservation
  ++ "
- The image should have a shallow depth of field, keeping the product in sharp focus while the background is slightly blurred
- Color accuracy is important - maintain the exact colors of the product"
  ++ (if truthy_string colorDescription then color_fidelity_clause else "")
  ++ "

Style: Professional product photography, boutique aesthetic, luxury catalog, high-end e-commerce, clean and minimal, sophisticated lighting, premium quality.".

Definition colorDescription_of (color : option string) : string :=
  match color with
  | Some c => if truthy_string c then " in " ++ c ++ " color" else ""
  | None => ""
  end.

Definition buildPrompt (productType : ProductType) (color : option string)
    (hasDesign : bool) : string :=
  let colorDescription := colorDescription_of color in
  let designPreservation :=
    if hasDesign then design_preservation_clause else "" in
  match productType with
  | HOODIE | SHIRT | TANK_TOP | LONG_SLEEVE | SWEATSHIRT | JACKET =>
      buildClothingPrompt productType colorDescription designPreservation
  | FACECAP => buildCapPrompt colorDescription designPreservation
  | MUG => buildMugPrompt colorDescription designPreservation
  | STICKER_PAD => buildStickerPadPrompt colorDescription designPreservation
  | TOTE_BAG => buildToteBagPrompt colorDescription designPreservation
  | UNKNOWN _ =>
      buildGenericPrompt productType colorDescription designPreservation
  end.

End PromptBuilder.

(** The earlier single-template copy of the builder kept in the repository
    (src/unnamed/part_000); the facade does not import it. *)
Module SingleTemplatePromptBuilder.
Import JsString.

Definition getProductName := PromptBuilder.getProductName.

Definition buildPrompt (productType : ProductType) (color : option string)
    (hasDesign : bool) : string :=
  let productName := getProductName productType in
  let colorDescription := PromptBuilder.colorDescription_of color in
  let designPreservation :=
    if hasDesign then PromptBuilder.design_preservation_clause else "" in
  "Create a high-quality, professional product photography image of a "
  ++ productName
  ++ colorDescription
  ++ " hanging from an elegant golden or wooden hanger in a luxury boutique setting. 

Requirements:
- The "
  ++ productName
  ++ " should be displayed hanging from a premium golden or wooden hanger with a slight, natural tilt (approximately 15-20 degrees) that showcases the product beautifully
- The focus should be entirely on the "
  ++ productName
  ++ ", which should appear as if it's made from high-quality fabric/material
- The background should suggest an upscale boutique environment - think soft, professional lighting, elegant textures, and a sophisticated atmosphere
- The image should look like professional product photography that you would see in a high-end fashion catalog or boutique website
- The lighting should be soft and flattering, highlighting the product's details and texture
- The "
  ++ productName
  ++ " should appear three-dimensional and realistic, as if it's an actual physical item
- The overall aesthetic should be clean, minimal, and luxurious"
  ++ designPreservation
  ++ "
- The hanger should be visible but not distract from the product
- The image should have a shallow depth of field, keeping the product in sharp focus while the background is slightly blurred
- Color accuracy is important - maintain the exact colors of the product"
  ++ (match color with
     | Some c => if truthy_string c then ", especially the " ++ c ++ " color specified" else ""
     | None => ""
     end)
  ++ "

Style: Professional product photography, boutique aesthetic, luxury fashion catalog, high-end e-commerce, clean and minimal, sophisticated lighting, realistic fabric texture, premium quality.".

End SingleTemplatePromptBuilder.

(* ================================================================== *)
(** * Provider adapters (src/providers/ai-provider.ts) *)

Module Providers.
Local Open Scope string_scope.

Definition LF : string := String (ascii_of_nat 10) EmptyString.

Definition json_headers (authorization : list (string * string)) :
    list (string * string) :=
  (authorization ++ [("Content-Type", "application/json")])%list.

Definition num (z : Z) : Js.value := Js.Num (inject_Z z).

(** ** OpenAIProvider *)

Definition openai_missing_key : string :=
  "OpenAI API key is required. Set OPENAI_API_KEY environment variable or pass apiKey in options.".

Definition openai_vision_request (P : Platform) (referenceImage : Buffer)
    (apiKey : string) : Request :=
  let base64Image := Base64.encode referenceImage in
  let mimeType := "image/png" in
  {| url := "https://api.openai.com/v1/chat/completions";
     method := "POST";
     headers := json_headers [("Authorization", "Bearer " ++ apiKey)];
     body := TextBody (JSON_stringify P (Js.Obj [
       ("model", Js.Str "gpt-4-vision-preview");
       ("messages", Js.Arr [Js.Obj [
          ("role", Js.Str "user");
          ("content", Js.Arr [
             Js.Obj [
               ("type", Js.Str "text");
               ("text", Js.Str "Describe in detail the design, graphics, text, colors, and any visual elements visible on this product. Be very specific about what is printed or displayed on the product itself. Focus only on the design elements, not the product type or background.")];
             Js.Obj [
               ("type", Js.Str "image_url");
               ("image_url", Js.Obj [
                  ("url", Js.Str ("data:" ++ mimeType ++ ";base64," ++ base64Image))])]])]]);
       ("max_tokens", num 300)])) |}.

Definition openai_image_request (P : Platform) (enhancedPrompt apiKey : string) :
    Request :=
  {| url := "https://api.openai.com/v1/images/generations";
     method := "POST";
     headers := json_headers [("Authorization", "Bearer " ++ apiKey)];
     body := TextBody (JSON_stringify P (Js.Obj [
       ("model", Js.Str "dall-e-3");
       ("prompt", Js.Str enhancedPrompt);
       ("n", num 1);
       ("size", Js.Str "1024x1024");
       ("response_format", Js.Str "b64_json");
       ("quality", Js.Str "hd")])) |}.

Definition OpenAIProvider_generateImage (prompt : string)
    (referenceImage : Buffer) (apiKey : string) : M Buffer :=
  if negb (JsString.truthy_string apiKey) then
    throw (Error openai_missing_key)
  else
    P <- platform ;;
    visionResponse <- fetch (openai_vision_request P referenceImage apiKey) ;;
    if negb (ok visionResponse) then
      let error := json_or_unknown visionResponse in
      throw (Error ("OpenAI Vision API error: " ++ JSON_stringify P error))
    else
      visionData <- json visionResponse ;;
      choices <- lift (Js.prop (Some visionData) "choices") ;;
      choice <- lift (Js.first choices) ;;
      message <- lift (Js.prop choice "message") ;;
      designDescription <- lift (Js.prop message "content") ;;
      let enhancedPrompt :=
        prompt ++ LF ++ LF
        ++ "IMPORTANT: The product must have the following design elements exactly as described: "
        ++ ToString P designDescription
        ++ ". These design elements must be preserved exactly - do not alter, modify, or change them in any way." in
      imageResponse <- fetch (openai_image_request P enhancedPrompt apiKey) ;;
      if negb (ok imageResponse) then
        let error := json_or_unknown imageResponse in
        throw (Error ("OpenAI DALL-E API error: " ++ JSON_stringify P error))
      else
        imageData <- json imageResponse ;;
        data <- lift (Js.prop (Some imageData) "data") ;;
        item <- lift (Js.first data) ;;
        imageBase64 <- lift (Js.prop item "b64_json") ;;
        lift (Buffer_from_base64 P imageBase64).

(** ** StabilityAIProvider *)

Definition stability_missing_key : string :=
  "Stability AI API key is required. Set STABILITY_API_KEY environment variable or pass apiKey in options.".

Definition stability_request (prompt : string) (referenceImage : Buffer)
    (apiKey : string) : Request :=
  {| url := "https://api.stability.ai/v2beta/stable-image/edit/creative";
     method := "POST";
     headers := [("Authorization", "Bearer " ++ apiKey)];
     body := FormData [
       ("image", FormBlob referenceImage "image/png" "product.png");
       ("prompt", FormText prompt);
       ("mode", FormText "image-to-image");
       ("strength", FormText "0.7")] |}.

Definition StabilityAIProvider_generateImage (prompt : string)
    (referenceImage : Buffer) (apiKey : string) : M Buffer :=
  if negb (JsString.truthy_string apiKey) then
    throw (Error stability_missing_key)
  else
    response <- fetch (stability_request prompt referenceImage apiKey) ;;
    if negb (ok response) then
      let error := body_text response in
      throw (Error ("Stability AI API error: " ++ error))
    else
      ret (body_bytes response).

(** ** NanoBananaProvider *)

Definition nanobanana_missing_key : string :=
  "Google AI API key is required. Set GOOGLE_AI_API_KEY or GEMINI_API_KEY environment variable or pass apiKey in options.".

Definition nanobanana_request (P : Platform) (prompt : string)
    (referenceImage : Buffer) (apiKey : string) : Request :=
  let base64Image := Base64.encode referenceImage in
  let mimeType := "image/png" in
  {| url := "https://generativelanguage.googleapis.com/v1beta/models/gemini-2.5-flash-image:generateContent?key=" ++ apiKey;
     method := "POST";
     headers := json_headers [];
     body := TextBody (JSON_stringify P (Js.Obj [
       ("contents", Js.Arr [Js.Obj [
          ("parts", Js.Arr [
             Js.Obj [("text", Js.Str prompt)];
             Js.Obj [("inlineData", Js.Obj [
                ("mimeType", Js.Str mimeType);
                ("data", Js.Str base64Image)])]])]]);
       ("generationConfig", Js.Obj [
          ("temperature", Js.Num (7 # 10)%Q);
          ("topK", num 40);
          ("topP", Js.Num (95 # 100)%Q);
          ("maxOutputTokens", num 1024)])])) |}.

(** [items.find((part) => part.inlineData)] *)
Fixpoint find_inlineData (items : list Js.value) : exn + option Js.value :=
  match items with
  | [] => inr None
  | part :: rest =>
      match Js.prop (Some part) "inlineData" with
      | inl e => inl e
      | inr v => if Js.truthy v then inr (Some part) else find_inlineData rest
      end
  end.

(** [parts?.find(...)] *)
Definition opt_find_inlineData (parts : option Js.value) : exn + option Js.value :=
  match parts with
  | None | Some Js.Null => inr None
  | Some (Js.Arr items) => find_inlineData items
  | Some _ => inl (TypeError "parts.find is not a function")
  end.

Definition NanoBananaProvider_generateImage (prompt : string)
    (referenceImage : Buffer) (apiKey : string) : M Buffer :=
  if negb (JsString.truthy_string apiKey) then
    throw (Error nanobanana_missing_key)
  else
    P <- platform ;;
    response <- fetch (nanobanana_request P prompt referenceImage apiKey) ;;
    if negb (ok response) then
      let error := json_or_unknown response in
      throw (Error ("Google Gemini API error: " ++ JSON_stringify P error))
    else
      data <- json response ;;
      candidates <- lift (Js.prop (Some data) "candidates") ;;
      candidate <- lift (Js.first candidates) ;;
      content <- lift (Js.opt_prop candidate "content") ;;
      parts <- lift (Js.opt_prop content "parts") ;;
      imagePart <- lift (opt_find_inlineData parts) ;;
      inlineData <- lift (Js.opt_prop imagePart "inlineData") ;;
      imageData <- lift (Js.opt_prop inlineData "data") ;;
      if negb (Js.truthy imageData) then
        throw (Error "Nano Banana API did not return an image")
      else
        lift (Buffer_from_base64 P imageData).

(** ** ReplicateProvider *)

Definition replicate_missing_key : string :=
  "Replicate API token is required. Set REPLICATE_API_TOKEN environment variable or pass apiKey in options.".

Definition replicate_no_image : string :=
  "Replicate prediction did not return an image".

Definition poll_interval : N := 1000.

Definition replicate_create_request (P : Platform) (prompt : string)
    (referenceImage : Buffer) (apiKey : string) : Request :=
  let base64Image := Base64.encode referenceImage in
  let dataUri := "data:image/png;base64," ++ base64Image in
  {| url := "https://api.replicate.com/v1/predictions";
     method := "POST";
     headers := json_headers [("Authorization", "Token " ++ apiKey)];
     body := TextBody (JSON_stringify P (Js.Obj [
       ("version", Js.Str "stability-ai/stable-diffusion:db21e45d3f7023abc2e46d38e3e839806992f2a2");
       ("input", Js.Obj [
          ("image", Js.Str dataUri);
          ("prompt", Js.Str prompt);
          ("strength", Js.Num (7 # 10)%Q)])])) |}.

Definition replicate_status_request (P : Platform) (id : option Js.value)
    (apiKey : string) : Request :=
  {| url := "https://api.replicate.com/v1/predictions/" ++ ToString P id;
     method := "GET";
     headers := [("Authorization", "Token " ++ apiKey)];
     body := NoBody |}.

(** [fetch(imageUrl)] *)
Definition get_request (P : Platform) (target : option Js.value) : Request :=
  {| url := ToString P target; method := "GET"; headers := []; body := NoBody |}.

(** [result.status === 'starting' || result.status === 'processing'] *)
Definition in_progress (status : option Js.value) : bool :=
  Js.is_string status "starting" || Js.is_string status "processing".

(** The [while] loop.  [fuel] bounds the iterations explored; the source
    has no bound, and running out of fuel is reported as [Pending]. *)
Fixpoint replicate_poll (fuel : nat) (apiKey : string)
    (prediction result : Js.value) : M Js.value :=
  status <- lift (Js.prop (Some result) "status") ;;
  if in_progress status then
    match fuel with
    | O => pending
    | S fuel' =>
        sleep poll_interval ;;;
        P <- platform ;;
        id <- lift (Js.prop (Some prediction) "id") ;;
        statusResponse <- fetch (replicate_status_request P id apiKey) ;;
        result' <- json statusResponse ;;
        replicate_poll fuel' apiKey prediction result'
    end
  else ret result.

(** The code after the loop. *)
Definition replicate_finish (result : Js.value) : M Buffer :=
  P <- platform ;;
  status <- lift (Js.prop (Some result) "status") ;;
  if Js.is_string status "failed" then
    error <- lift (Js.prop (Some result) "error") ;;
    throw (Error ("Replicate prediction failed: "
                  ++ ToString P (Js.or_else error (Js.Str "Unknown error"))))
  else
    output <- lift (Js.prop (Some result) "output") ;;
    if negb (Js.truthy output) then throw (Error replicate_no_image)
    else
      len <- lift (Js.prop output "length") ;;
      if Js.is_zero len then throw (Error replicate_no_image)
      else
        imageUrl <- lift (Js.first output) ;;
        imageResponse <- fetch (get_request P imageUrl) ;;
        ret (body_bytes imageResponse).

Definition ReplicateProvider_generateImage (fuel : nat) (prompt : string)
    (referenceImage : Buffer) (apiKey : string) : M Buffer :=
  if negb (JsString.truthy_string apiKey) then
    throw (Error replicate_missing_key)
  else
    P <- platform ;;
    response <- fetch (replicate_create_request P prompt referenceImage apiKey) ;;
    if negb (ok response) then
      let error := json_or_unknown response in
      throw (Error ("Replicate API error: " ++ JSON_stringify P error))
    else
      prediction <- json response ;;
      result <- replicate_poll fuel apiKey prediction prediction ;;
      replicate_finish result.

(** The trace after [n] rounds of the loop: each round waits, then asks
    for the status. *)
Definition polled (status_request : Request) (t : Trace) (n : nat) : Trace :=
  Nat.iter n (fun t' => EvFetch status_request :: EvSleep poll_interval :: t') t.

(** A scripted Replicate service: the job is created as "starting", is
    "processing" at the first poll and has the given final state from the
    second poll on; the one output URL serves a PNG header. *)
Definition job_state (status : string) (extra : list (string * Js.value)) :
    Response :=
  {| ok := true;
     body_json := Some (Js.Obj (("id", Js.Str "p1") :: ("status", Js.Str status) :: extra));
     body_text := "";
     body_bytes := [] |}.

Definition scripted_replicate (final : Response) (t : Trace) (request : Request) :
    exn + Response :=
  if String.eqb (url request) "https://api.replicate.com/v1/predictions" then
    inr (job_state "starting" [])
  else if String.eqb (url request) "https://api.replicate.com/v1/predictions/p1" then
    match network_calls t with
    | 0 | 1 => inr (job_state "processing" [])
    | _ => inr final
    end
  else if String.eqb (url request) "https://cdn.example/out.png" then
    inr {| ok := true; body_json := None; body_text := "";
           body_bytes := [x89; x50; x4e; x47] |}
  else inl (SystemError "ENOTFOUND").

Definition replicate_platform (final : Response) : Platform :=
  node_platform (files []) (scripted_replicate final) no_rendering no_rendering.

Definition job_succeeded : Response :=
  job_state "succeeded" [("output", Js.Arr [Js.Str "https://cdn.example/out.png"])].

Definition job_failed : Response :=
  job_state "failed" [("error", Js.Str "CUDA out of memory")].

Definition job_canceled : Response :=
  job_state "canceled" [("error", Js.Str "Canceled by user")].

Definition scripted_job (i : nat) : list (string * Js.value) :=
  match i with
  | 0 => [("id", Js.Str "p1"); ("status", Js.Str "starting")]
  | 1 => [("id", Js.Str "p1"); ("status", Js.Str "processing")]
  | _ => [("id", Js.Str "p1"); ("status", Js.Str "succeeded");
          ("output", Js.Arr [Js.Str "https://cdn.example/out.png"])]
  end.

(** A stub of the default generator's transport: every request is answered
    with a candidate carrying one inline image, a PNG header. *)
Definition echo_gemini (_ : Trace) (_ : Request) : exn + Response :=
  inr {| ok := true;
         body_json := Some (Js.Obj [
           ("candidates", Js.Arr [Js.Obj [
              ("content", Js.Obj [
                 ("parts", Js.Arr [
                    Js.Obj [("text", Js.Str "Here is the mockup.")];
                    Js.Obj [("inlineData", Js.Obj [
                       ("mimeType", Js.Str "image/png");
                       ("data", Js.Str "iVBORw==")])]])])]])]);
         body_text := "";
         body_bytes := [] |}.

Definition gemini_platform : Platform :=
  node_platform (files []) echo_gemini no_rendering no_rendering.

(** ** The AIProvider interface and its four implementations *)

Inductive AIProvider : Type :=
| NanoBananaProvider
| OpenAIProvider
| StabilityAIProvider
| ReplicateProvider.

(** [provider.generateImage(prompt, referenceImage, { apiKey })] *)
Definition generateImage (fuel : nat) (provider : AIProvider) (prompt : string)
    (referenceImage : Buffer) (apiKey : string) : M Buffer :=
  match provider with
  | NanoBananaProvider => NanoBananaProvider_generateImage prompt referenceImage apiKey
  | OpenAIProvider => OpenAIProvider_generateImage prompt referenceImage apiKey
  | StabilityAIProvider => StabilityAIProvider_generateImage prompt referenceImage apiKey
  | ReplicateProvider => ReplicateProvider_generateImage fuel prompt referenceImage apiKey
  end.

(** ** Provider factory *)

Definition createAIProvider (provider : string) : exn + AIProvider :=
  if String.eqb provider "nanobanana" then inr NanoBananaProvider
  else if String.eqb provider "openai" then inr OpenAIProvider
  else if String.eqb provider "stability" then inr StabilityAIProvider
  else if String.eqb provider "replicate" then inr ReplicateProvider
  else inl (Error ("Unsupported provider: " ++ provider)).

(** The identity under which the factory knows each adapter, the message an
    adapter gives for a missing credential, and the environment variable
    that message is expected to name. *)
Definition identity_of (provider : AIProvider) : string :=
  match provider with
  | NanoBananaProvider => "nanobanana"
  | OpenAIProvider => "openai"
  | StabilityAIProvider => "stability"
  | ReplicateProvider => "replicate"
  end.

Definition missing_key_message (provider : AIProvider) : string :=
  match provider with
  | NanoBananaProvider => nanobanana_missing_key
  | OpenAIProvider => openai_missing_key
  | StabilityAIProvider => stability_missing_key
  | ReplicateProvider => replicate_missing_key
  end.

Definition credential_variable (provider : AIProvider) : string :=
  match provider with
  | NanoBananaProvider => "GOOGLE_AI_API_KEY"
  | OpenAIProvider => "OPENAI_API_KEY"
  | StabilityAIProvider => "STABILITY_API_KEY"
  | ReplicateProvider => "REPLICATE_API_TOKEN"
  end.

End Providers.

(* ================================================================== *)
(** * MerchDesignEnhancer (src/index.ts, src/types/index.ts) *)

Module Enhancer.
Import ImageProcessor Providers.

Record MerchDesignEnhancerOptions : Type := {
  options_apiKey : string;
  options_provider : option string
}.

Record EnhanceImageOptions : Type := {
  image : ImageInput;
  productType : ProductType;
  color : option string
}.

Record EnhanceImageResult : Type := {
  result_image : Buffer;
  mimeType : string
}.

Record MerchDesignEnhancer : Type := {
  apiKey : string;
  provider : string;
  aiProvider : AIProvider
}.

(** The constructor; [options.provider || 'nanobanana']. *)
Definition new_MerchDesignEnhancer (options : MerchDesignEnhancerOptions) :
    exn + MerchDesignEnhancer :=
  let apiKey := options_apiKey options in
  let provider :=
    if JsString.truthy_opt (options_provider options)
    then match options_provider options with Some p => p | None => "nanobanana" end
    else "nanobanana" in
  match createAIProvider provider with
  | inr aiProvider =>
      inr {| apiKey := apiKey; provider := provider; aiProvider := aiProvider |}
  | inl e => inl e
  end.

Definition enhanceImage (fuel : nat) (this : MerchDesignEnhancer)
    (options : EnhanceImageOptions) : M EnhanceImageResult :=
  imageBuffer <- normalizeImageInput (image options) ;;
  let prompt :=
    PromptBuilder.buildPrompt (productType options) (color options) true in
  enhancedImage <-
    generateImage fuel (aiProvider this) prompt imageBuffer (apiKey this) ;;
  let mimeType := detectMimeType enhancedImage in
  ret {| result_image := enhancedImage; mimeType := mimeType |}.

End Enhancer.

(* ================================================================== *)
(** * Scripted services and trace measures used as concrete inputs *)

Module Scripts.
Local Open Scope string_scope.

(** Every request is refused with a body that is not JSON. *)
Definition unauthorized (_ : Trace) (_ : Request) : exn + Response :=
  inr {| ok := false; body_json := None; body_text := "Unauthorized";
         body_bytes := [] |}.

Definition unauthorized_platform : Platform :=
  node_platform (files []) unauthorized no_rendering no_rendering.

(** The two OpenAI endpoints: a description, then an image. *)
Definition openai_service (_ : Trace) (request : Request) : exn + Response :=
  if String.eqb (url request) "https://api.openai.com/v1/chat/completions" then
    inr {| ok := true;
           body_json := Some (Js.Obj [
             ("choices", Js.Arr [Js.Obj [
                ("message", Js.Obj [
                   ("role", Js.Str "assistant");
                   ("content", Js.Str "A red fox logo")])]])]);
           body_text := ""; body_bytes := [] |}
  else if String.eqb (url request) "https://api.openai.com/v1/images/generations" then
    inr {| ok := true;
           body_json := Some (Js.Obj [
             ("data", Js.Arr [Js.Obj [("b64_json", Js.Str "iVBORw==")]])]);
           body_text := ""; body_bytes := [] |}
  else inl (SystemError "ENOTFOUND").

Definition openai_platform : Platform :=
  node_platform (files []) openai_service no_rendering no_rendering.

(** A Replicate job that never leaves "processing". *)
Definition stuck_replicate (_ : Trace) (_ : Request) : exn + Response :=
  inr (Providers.job_state "processing" []).

Definition stuck_platform : Platform :=
  node_platform (files []) stuck_replicate no_rendering no_rendering.

(** A candidate list that is present and empty. *)
Definition empty_candidates (_ : Trace) (_ : Request) : exn + Response :=
  inr {| ok := true;
         body_json := Some (Js.Obj [("candidates", Js.Arr [])]);
         body_text := ""; body_bytes := [] |}.

Definition empty_candidates_platform : Platform :=
  node_platform (files []) empty_candidates no_rendering no_rendering.

(** A response part without image data: an object whose [inlineData] is
    missing or falsy. *)
Definition text_only (part : Js.value) : Prop :=
  exists fields, part = Js.Obj fields
                 /\ Js.truthy (Js.lookup "inlineData" fields) = false.

(** Milliseconds spent waiting in a trace. *)
Definition time_slept (t : Trace) : N :=
  fold_right (fun e acc => match e with EvSleep ms => (ms + acc)%N | _ => acc end)
    0%N t.

(** Number of file reads in a trace. *)
Definition file_reads (t : Trace) : nat :=
  List.length (filter (fun e => match e with EvReadFile _ => true | _ => false end) t).

(** An effect budget: whatever the platform and the trace so far, the
    computation only adds events in front of the trace, among them at most
    [reads] file reads and [requests] network requests, and at most [wait]
    milliseconds of sleep. *)
Definition within (reads requests : nat) (wait : N) {A : Type} (m : M A) : Prop :=
  forall (P : Platform) (t : Trace),
    exists added : Trace,
      snd (m P t) = (added ++ t)%list
      /\ file_reads added <= reads
      /\ network_calls added <= requests
      /\ (time_slept added <= wait)%N.

(** Requests and waiting an adapter may spend when at most [fuel] rounds of
    polling are explored. *)
Definition request_budget (fuel : nat) (provider : Providers.AIProvider) : nat :=
  match provider with
  | Providers.ReplicateProvider => fuel + 2
  | Providers.OpenAIProvider => 2
  | _ => 1
  end.

Definition wait_budget (fuel : nat) (provider : Providers.AIProvider) : N :=
  match provider with
  | Providers.ReplicateProvider => (Providers.poll_interval * N.of_nat fuel)%N
  | _ => 0%N
  end.

End Scripts.

(* ================================================================== *)
(** * Properties of detectMimeType *)

Module MimeSniffFacts.
Import MimeSniff.

Ltac case_bytes :=
  repeat match goal with
         | |- context [Byte.eqb ?a ?b] => destruct (Byte.eqb a b)
         end.

Lemma byte_is_nil (i : nat) (b : byte) : byte_is [] i b = false.
Proof. unfold byte_is. destruct i; reflexivity. Qed.

Lemma byte_is_short (x : byte) (i : nat) (b : byte) :
  byte_is [x] (S i) b = false.
Proof. unfold byte_is. destruct i; reflexivity. Qed.

Lemma starts_with_2 (buffer : Buffer) (a b : byte) :
  starts_with buffer [a; b] = byte_is buffer 0 a && byte_is buffer 1 b.
Proof.
  destruct buffer as [|x0 [|x1 r]]; unfold byte_is;
    cbn [starts_with nth_error]; case_bytes; reflexivity.
Qed.

Lemma starts_with_3 (buffer : Buffer) (a b c : byte) :
  starts_with buffer [a; b; c]
  = byte_is buffer 0 a && byte_is buffer 1 b && byte_is buffer 2 c.
Proof.
  destruct buffer as [|x0 [|x1 [|x2 r]]]; unfold byte_is;
    cbn [starts_with nth_error]; case_bytes; reflexivity.
Qed.

Lemma starts_with_4 (buffer : Buffer) (a b c d : byte) :
  starts_with buffer [a; b; c; d]
  = byte_is buffer 0 a && byte_is buffer 1 b
    && byte_is buffer 2 c && byte_is buffer 3 d.
Proof.
  destruct buffer as [|x0 [|x1 [|x2 [|x3 r]]]]; unfold byte_is;
    cbn [starts_with nth_error]; case_bytes; reflexivity.
Qed.

(** C8.  detectMimeType compares the leading bytes of the buffer with the
    four signatures JPEG [FF D8], PNG [89 50 4E 47], GIF [47 49 46] and
    WEBP [52 49 46 46], in that order; its result is the MIME type of the
    first signature that is a prefix of the buffer, and "image/png" when
    none is.  It is a total function: every buffer gets a result. *)
Theorem detectMimeType_first_match (buffer : Buffer) :
  detectMimeType buffer = first_signature buffer.
Proof.
  unfold detectMimeType, first_signature, signatures.
  cbn [find fst snd].
  rewrite starts_with_2, starts_with_4, starts_with_3, starts_with_4.
  destruct (byte_is buffer 0 xff && byte_is buffer 1 xd8); [reflexivity|].
  destruct (byte_is buffer 0 x89 && byte_is buffer 1 x50
            && byte_is buffer 2 x4e && byte_is buffer 3 x47); [reflexivity|].
  destruct (byte_is buffer 0 x47 && byte_is buffer 1 x49
            && byte_is buffer 2 x46); [reflexivity|].
  destruct (byte_is buffer 0 x52 && byte_is buffer 1 x49
            && byte_is buffer 2 x46 && byte_is buffer 3 x46); reflexivity.
Qed.

Example sniff_png : detectMimeType [x89; x50; x4e; x47; x0d; x0a] = "image/png".
Proof. reflexivity. Qed.

Example sniff_jpeg : detectMimeType [xff; xd8; xff; xe0] = "image/jpeg".
Proof. reflexivity. Qed.

Example sniff_gif : detectMimeType [x47; x49; x46; x38] = "image/gif".
Proof. reflexivity. Qed.

Example sniff_webp : detectMimeType [x52; x49; x46; x46; x00] = "image/webp".
Proof. reflexivity. Qed.

Example sniff_unknown : detectMimeType [x00; x01; x02; x03] = "image/png".
Proof. reflexivity. Qed.

(** C10.  detectMimeType needs no minimum length: on a buffer of fewer than
    two bytes (the empty one included) every signature test reads past the
    end, none matches, and the result is "image/png"; and whatever the
    buffer, the result is one of the four known MIME types. *)
Theorem detectMimeType_short_and_closed :
  (forall buffer : Buffer,
      List.length buffer < 2 -> detectMimeType buffer = "image/png")
  /\ (forall buffer : Buffer, known_mime (detectMimeType buffer)).
Proof.
  split.
  - intros [|x [|y r]] Hlen.
    + reflexivity.
    + unfold detectMimeType.
      rewrite !byte_is_short, !Bool.andb_false_r. reflexivity.
    + cbn [List.length] in Hlen. lia.
  - intros buffer. unfold detectMimeType, known_mime.
    repeat match goal with
           | |- context [if ?c then _ else _] => destruct c
           end; tauto.
Qed.

Lemma detectMimeType_short_and_closed_witness :
  detectMimeType [] = "image/png"
  /\ detectMimeType [xff] = "image/png"
  /\ known_mime (detectMimeType [x47; x49; x46]).
Proof.
  destruct detectMimeType_short_and_closed as [Hshort Hclosed].
  split; [|split].
  - apply Hshort. cbn. lia.
  - apply Hshort. cbn. lia.
  - apply Hclosed.
Defined.

End MimeSniffFacts.

(* ================================================================== *)
(** * Properties of the prompt builder *)

Module PromptBuilderFacts.
Import JsString PromptBuilder.

Example colorDescription_navy :
  colorDescription_of (Some "navy blue") = " in navy blue color".
Proof. reflexivity. Qed.

Example colorDescription_absent :
  colorDescription_of None = "" /\ colorDescription_of (Some "") = "".
Proof. split; reflexivity. Qed.

(** The single-template copy interpolates the colour in both clauses. *)
Lemma single_template_names_color_twice (productType : ProductType) :
  occurrences "navy blue"
    (SingleTemplatePromptBuilder.buildPrompt productType (Some "navy blue") true) = 2.
Proof. destruct productType; vm_compute; reflexivity. Qed.

(** C1, as stated, fails on the builder the facade uses: the prompt for a
    navy blue hoodie does not contain "navy blue" twice. *)
Lemma buildPrompt_color_not_twice :
  ~ (2 <= occurrences "navy blue" (buildPrompt HOODIE (Some "navy blue") true)).
Proof. vm_compute. lia. Qed.

(** C1, amended.  For every product category, the prompt built for the
    colour "navy blue" contains "navy blue" exactly once, in the descriptive
    clause " in navy blue color", and contains the fidelity clause
    ", especially the specified color", which does not repeat the colour;
    the prompt built without a colour contains neither clause. *)
Theorem buildPrompt_color_clauses (productType : ProductType) :
  let colored := buildPrompt productType (Some "navy blue") true in
  let plain := buildPrompt productType None true in
  occurrences "navy blue" colored = 1
  /\ includes " in navy blue color" colored = true
  /\ includes color_fidelity_clause colored = true
  /\ includes "navy blue" plain = false
  /\ includes " in navy blue color" plain = false
  /\ includes color_fidelity_clause plain = false.
Proof.
  destruct productType; vm_compute; repeat split.
Qed.

End PromptBuilderFacts.

(* ================================================================== *)
(** * Properties of the provider factory and of the credential check *)

Module ProviderFacts.
Import Providers.

Example createAIProvider_replicate :
  createAIProvider "replicate" = inr ReplicateProvider.
Proof. reflexivity. Qed.

Example createAIProvider_case_sensitive :
  createAIProvider "OpenAI" = inl (Error "Unsupported provider: OpenAI").
Proof. reflexivity. Qed.

(** C6.  The factory returns an adapter exactly for the four identities
    nanobanana, openai, stability and replicate, each time the adapter of
    that identity; for every other string it throws the error
    "Unsupported provider: <identity>". *)
Theorem createAIProvider_closed :
  (forall provider : AIProvider,
      createAIProvider (identity_of provider) = inr provider)
  /\ (forall identity : string,
        match createAIProvider identity with
        | inr provider => identity = identity_of provider
        | inl e =>
            e = Error ("Unsupported provider: " ++ identity)
            /\ forall provider, identity <> identity_of provider
        end).
Proof.
  split.
  - intros []; reflexivity.
  - intros identity. unfold createAIProvider.
    destruct (String.eqb_spec identity "nanobanana") as [->|H1]; [reflexivity|].
    destruct (String.eqb_spec identity "openai") as [->|H2]; [reflexivity|].
    destruct (String.eqb_spec identity "stability") as [->|H3]; [reflexivity|].
    destruct (String.eqb_spec identity "replicate") as [->|H4]; [reflexivity|].
    split; [reflexivity|].
    intros [] ->; cbn in *; congruence.
Qed.

(** C4.  Whatever the adapter, the prompt and the reference image, calling
    generateImage with the empty credential rejects with that adapter's
    missing-credential error, whose message names the environment variable
    expected, and leaves the trace of effects as it was: no network request
    has been issued. *)
Theorem empty_credential_fails_fast (fuel : nat) (provider : AIProvider)
    (prompt : string) (referenceImage : Buffer) (P : Platform) (t : Trace) :
  generateImage fuel provider prompt referenceImage "" P t
  = (Rejected (Error (missing_key_message provider)), t)
  /\ JsString.includes (credential_variable provider)
       (missing_key_message provider) = true
  /\ network_calls (snd (generateImage fuel provider prompt referenceImage "" P t))
     = network_calls t.
Proof.
  destruct provider; repeat split; reflexivity.
Qed.

(** With a credential, the first thing each adapter does is a request. *)
Example credential_reaches_network (provider : AIProvider) :
  network_calls (snd (generateImage 0 provider "prompt" [x01] "key" node0 [])) = 1.
Proof. destruct provider; reflexivity. Qed.

End ProviderFacts.

(* ================================================================== *)
(** * Base64: decoding inverts encoding *)

Module Base64Facts.
Import Base64.
Local Open Scope N_scope.

Ltac Zify.zify_post_hook ::= Z.to_euclidean_division_equations.

Lemma byte_of_to_N (b : byte) : byte_of_N (Byte.to_N b) = b.
Proof.
  unfold byte_of_N.
  pose proof (Byte.to_N_bounded b) as Hb.
  rewrite N.mod_small by lia.
  now rewrite Byte.of_to_N.
Qed.

Lemma sextet_table :
  forallb (fun i => sextet_ok (N.of_nat i)) (seq 0 64) = true.
Proof. vm_compute. reflexivity. Qed.

Lemma sextet_ok_small (n : N) : n < 64 -> sextet_ok n = true.
Proof.
  intros Hn.
  pose proof (proj1 (forallb_forall _ _) sextet_table (N.to_nat n)) as H.
  cbv beta in H. rewrite N2Nat.id in H. apply H.
  apply in_seq. lia.
Qed.

Lemma sextets_cons (n : N) (s : string) :
  n < 64 -> sextets (String (char_of_sextet n) s) = n :: sextets s.
Proof.
  intros Hn. apply sextet_ok_small in Hn. unfold sextet_ok in Hn.
  apply andb_prop in Hn as [Hn _]. apply andb_prop in Hn as [Hv Hpad].
  cbn [sextets].
  destruct (Ascii.eqb (char_of_sextet n) "="); [discriminate|].
  destruct (unbase64 (char_of_sextet n)) as [m|]; [|discriminate].
  apply N.eqb_eq in Hv. now subst.
Qed.

Lemma encoded_char_sextet (n : N) :
  n < 64 -> encoded_char (char_of_sextet n) = true.
Proof.
  intros Hn. apply sextet_ok_small in Hn. unfold sextet_ok in Hn.
  now apply andb_prop in Hn as [_ Hn].
Qed.

Lemma sextets_pad (s : string) : sextets (String "=" s) = [].
Proof. reflexivity. Qed.

(** Three octets at a time, with the two shorter tails as base cases. *)
Lemma buffer_ind3 (Q : Buffer -> Prop) :
  Q [] ->
  (forall a, Q [a]) ->
  (forall a b, Q [a; b]) ->
  (forall a b c rest, Q rest -> Q (a :: b :: c :: rest)) ->
  forall bs, Q bs.
Proof.
  intros H0 H1 H2 H3.
  fix IH 1. intros [|a [|b [|c rest]]].
  - exact H0.
  - apply H1.
  - apply H2.
  - apply H3, IH.
Qed.

Ltac bounds a :=
  pose proof (Byte.to_N_bounded a).

Lemma decode_encode (bs : Buffer) : decode (encode bs) = bs.
Proof.
  unfold decode.
  induction bs as [|a|a b|a b c rest IH] using buffer_ind3.
  - reflexivity.
  - bounds a. cbn [encode].
    rewrite !sextets_cons, sextets_pad by lia.
    cbn [bytes_of_sextets]. f_equal.
    rewrite <- (byte_of_to_N a) at 3. f_equal. lia.
  - bounds a. bounds b. cbn [encode].
    rewrite !sextets_cons, sextets_pad by lia.
    cbn [bytes_of_sextets].
    rewrite <- (byte_of_to_N a) at 4. rewrite <- (byte_of_to_N b) at 4.
    repeat f_equal; lia.
  - bounds a. bounds b. bounds c. cbn [encode].
    rewrite !sextets_cons by lia.
    cbn [bytes_of_sextets]. rewrite IH.
    rewrite <- (byte_of_to_N a) at 4. rewrite <- (byte_of_to_N b) at 5.
    rewrite <- (byte_of_to_N c) at 4.
    repeat f_equal; lia.
Qed.

Lemma encode_well_formed (bs : Buffer) : well_formed (encode bs) = true.
Proof.
  unfold well_formed.
  induction bs as [|a|a b|a b c rest IH] using buffer_ind3.
  - reflexivity.
  - bounds a. cbn [encode all_chars].
    rewrite !encoded_char_sextet by lia. reflexivity.
  - bounds a. bounds b. cbn [encode all_chars].
    rewrite !encoded_char_sextet by lia. reflexivity.
  - bounds a. bounds b. bounds c. cbn [encode all_chars].
    rewrite !encoded_char_sextet by lia. exact IH.
Qed.

Example encode_ABC : encode ["A"%byte; "B"%byte; "C"%byte] = "QUJD"%string.
Proof. reflexivity. Qed.

Example encode_padding : encode ["h"%byte; "i"%byte] = "aGk="%string.
Proof. reflexivity. Qed.

Example encode_slashes : encode [xff; xff; xff] = "////"%string.
Proof. reflexivity. Qed.

Example decode_lenient : decode "QU JD!"%string = ["A"%byte; "B"%byte; "C"%byte].
Proof. reflexivity. Qed.

End Base64Facts.

(* ================================================================== *)
(** * Properties of normalizeImageInput *)

Module NormalizeFacts.
Import JsString ImageProcessor.

(** ** Strings: one-character patterns, split *)

Lemma prefix_char (c c' : ascii) (s : string) :
  prefix (String c EmptyString) (String c' s) = Ascii.eqb c c'.
Proof.
  cbn [prefix].
  destruct (ascii_dec c c') as [->|Hne].
  - rewrite Ascii.eqb_refl. now destruct s.
  - symmetry. now apply Ascii.eqb_neq.
Qed.

Lemma includes_char_cons (c c' : ascii) (s : string) :
  includes (String c EmptyString) (String c' s) = Ascii.eqb c c' || includes (String c EmptyString) s.
Proof. cbn [includes]. now rewrite prefix_char. Qed.

Lemma split_without (sep : ascii) (s : string) :
  includes (String sep EmptyString) s = false -> split sep s = [s].
Proof.
  induction s as [|c s IH]; intros H; [reflexivity|].
  rewrite includes_char_cons in H. apply Bool.orb_false_iff in H as [Hc Hs].
  cbn [split]. rewrite Ascii.eqb_sym, Hc, (IH Hs). reflexivity.
Qed.

Lemma split_at_first (sep : ascii) (s1 s2 : string) :
  includes (String sep EmptyString) s1 = false ->
  split sep (s1 ++ String sep s2) = s1 :: split sep s2.
Proof.
  induction s1 as [|c s1 IH]; intros H.
  - cbn [append split]. now rewrite Ascii.eqb_refl.
  - rewrite includes_char_cons in H. apply Bool.orb_false_iff in H as [Hc Hs].
    cbn [append split]. rewrite Ascii.eqb_sym, Hc, (IH Hs). reflexivity.
Qed.

Lemma all_chars_excludes (p : ascii -> bool) (c : ascii) (s : string) :
  Base64.all_chars p s = true -> p c = false -> includes (String c EmptyString) s = false.
Proof.
  intros Hall Hc. induction s as [|c' s IH]; [reflexivity|].
  cbn [Base64.all_chars] in Hall. apply andb_prop in Hall as [Hc' Hs].
  rewrite includes_char_cons, (IH Hs), Bool.orb_false_r.
  destruct (Ascii.eqb_spec c c') as [->|]; congruence.
Qed.

Lemma encode_excludes (c : ascii) (b : Buffer) :
  Base64.encoded_char c = false -> includes (String c EmptyString) (Base64.encode b) = false.
Proof.
  intros Hc. eapply all_chars_excludes; [apply Base64Facts.encode_well_formed|exact Hc].
Qed.

Lemma data_prefix_has_colon (s : string) :
  prefix "data:" s = true -> includes ":" s = true.
Proof.
  destruct s as [|c0 [|c1 [|c2 [|c3 [|c4 r]]]]]; cbn [prefix]; intros H;
    repeat match type of H with
           | (if ascii_dec ?a ?b then _ else _) = true =>
               destruct (ascii_dec a b) as [<-|]; [|discriminate H]
           end; try discriminate H.
  rewrite !(includes_char_cons ":"). reflexivity.
Qed.

Lemma encode_not_data_uri (b : Buffer) : prefix "data:" (Base64.encode b) = false.
Proof.
  destruct (prefix "data:" (Base64.encode b)) eqn:E; [|reflexivity].
  apply data_prefix_has_colon in E.
  rewrite (encode_excludes ":" b eq_refl) in E. discriminate.
Qed.

Lemma prefix_append (p s : string) : prefix p (p ++ s) = true.
Proof.
  induction p as [|a p IH]; cbn [append prefix].
  - now destruct s.
  - destruct (ascii_dec a a) as [_|Hne]; [exact IH|now elim Hne].
Qed.

Lemma data_uri_is_marked (header : string) (b : Buffer) :
  prefix "data:" (data_uri header b) = true.
Proof. unfold data_uri. apply prefix_append. Qed.

Lemma data_uri_payload_encode (header : string) (b : Buffer) :
  includes "," header = false ->
  data_uri_payload (data_uri header b) = Some (Js.Str (Base64.encode b)).
Proof.
  intros H. unfold data_uri_payload, data_uri.
  change ("," ++ Base64.encode b)%string with (String "," (Base64.encode b)).
  cbn [append split Ascii.eqb Bool.eqb].
  rewrite (split_at_first "," header (Base64.encode b) H).
  rewrite (split_without "," (Base64.encode b) (encode_excludes "," b eq_refl)).
  reflexivity.
Qed.

(** ** The bare-text branch *)

(** The data-URI test comes first: "data:xyz" contains no path separator,
    yet it is neither decoded as a whole nor read as a file; it rejects at
    once, since the payload after the comma is [undefined]. *)
Lemma data_prefix_is_not_bare_text :
  has_path_separator "data:xyz" = false
  /\ (exists message,
        normalizeImageInput (ImgString "data:xyz") node0 []
        = (Rejected (TypeError message), []))
  /\ base64_else_file "data:xyz" node0 []
     = (Resolved (Base64.decode "data:xyz"), [])
  /\ normalizeImageInput (ImgString "data:xyz") node0 []
     <> base64_else_file "data:xyz" node0 [].
Proof.
  split; [reflexivity|]. split; [eexists; reflexivity|].
  split; [reflexivity|]. vm_compute. discriminate.
Qed.

Lemma bare_text_equation (P : Platform) (s : string) (t : Trace) :
  has_path_separator s = false ->
  prefix "data:" s = false ->
  normalizeImageInput (ImgString s) P t = base64_else_file s P t.
Proof.
  unfold has_path_separator. intros Hsep Hdata.
  apply Bool.orb_false_iff in Hsep as [H1 H2].
  unfold normalizeImageInput, base64_else_file, bind, platform.
  rewrite Hdata, H1, H2. cbn [negb andb].
  destruct (Buffer_from_base64 P (Some (Js.Str s))); reflexivity.
Qed.



(** On Node itself the decoder never throws, so a bare text is never read
    as a file: a relative file name without separators is decoded. *)
Lemma node_decodes_every_bare_text (rf : string -> exn + Buffer)
    (rm : Trace -> Request -> exn + Response) (st ts : Js.value -> string)
    (s : string) (t : Trace) :
  has_path_separator s = false ->
  prefix "data:" s = false ->
  normalizeImageInput (ImgString s) (node_platform rf rm st ts) t
  = (Resolved (Base64.decode s), t).
Proof.
  intros Hsep Hdata.
  now rewrite (bare_text_equation _ s t Hsep Hdata).
Qed.

(** ** Failures *)

(** C3, as stated, fails: a text naming a file that cannot be read makes
    normalizeImageInput reject with the error of the file system, not with
    the invalid-input error. *)
Lemma unreadable_path_is_not_invalid_input :
  normalizeImageInput (ImgString "missing/photo.png") node0 []
  = (Rejected (SystemError "ENOENT"), [EvReadFile "missing/photo.png"])
  /\ SystemError "ENOENT" <> Error invalid_input_message.
Proof. split; [reflexivity|discriminate]. Qed.

(** C3, amended.  normalizeImageInput fails whenever none of its branches
    yields a binary payload, but with its own invalid-input error only for
    an input that is neither binary nor text.  A text naming an unreadable
    file path, after all other branches are exhausted (it is not a data URI,
    and it contains a path separator or its base64 decoding threw), fails
    with the error of the file system, unchanged; a data URI whose payload
    cannot be decoded fails with the error of the decoder; and a text input
    fails in no other way. *)
Theorem normalize_failures (P : Platform) (t : Trace) :
  (forall image e,
      fst (normalizeImageInput image P t) = Rejected e ->
      (image = ImgOther /\ e = Error invalid_input_message)
      \/ (exists s, image = ImgString s /\ prefix "data:" s = true
                    /\ Buffer_from_base64 P (data_uri_payload s) = inl e)
      \/ (exists s, image = ImgString s /\ prefix "data:" s = false
                    /\ (has_path_separator s = true
                        \/ exists d, Buffer_from_base64 P (Some (Js.Str s)) = inl d)
                    /\ fs_readFile P s = inl e))
  /\ normalizeImageInput ImgOther P t = (Rejected (Error invalid_input_message), t)
  /\ (forall s e,
        prefix "data:" s = false ->
        has_path_separator s = true
        \/ (exists d, Buffer_from_base64 P (Some (Js.Str s)) = inl d) ->
        fs_readFile P s = inl e ->
        normalizeImageInput (ImgString s) P t = (Rejected e, EvReadFile s :: t))
  /\ (forall s e,
        prefix "data:" s = true ->
        Buffer_from_base64 P (data_uri_payload s) = inl e ->
        normalizeImageInput (ImgString s) P t = (Rejected e, t)).
Proof.
  split; [|split; [|split]].
  - intros [b|s|] e H.
    + discriminate H.
    + right. unfold normalizeImageInput, bind, platform, readFile in H.
      unfold has_path_separator.
      destruct (prefix "data:" s) eqn:Hdata.
      * left. exists s. repeat split; trivial.
        destruct (Buffer_from_base64 P (data_uri_payload s)); cbn in H;
          [congruence|discriminate].
      * right. exists s. split; [reflexivity|]. split; [exact Hdata|].
        destruct (includes "/" s), (includes "\" s); cbn [negb andb orb] in *;
          try (destruct (fs_readFile P s); cbn in H;
               [split; [now left|congruence]|discriminate]).
        destruct (Buffer_from_base64 P (Some (Js.Str s))) as [d|b]; cbn in H;
          [|discriminate].
        destruct (fs_readFile P s); cbn in H;
          [split; [right; now exists d|congruence]|discriminate].
    + left. cbn in H. split; congruence.
  - reflexivity.
  - intros s e Hdata Hbranch Hread.
    unfold normalizeImageInput, bind, platform, readFile.
    unfold has_path_separator in Hbranch. rewrite Hdata.
    destruct (includes "/" s), (includes "\" s); cbn [negb andb orb] in *;
      try (rewrite Hread; reflexivity).
    destruct Hbranch as [Hsep|[d Hd]]; [discriminate Hsep|].
    rewrite Hd, Hread. reflexivity.
  - intros s e Hdata Hdecode.
    unfold normalizeImageInput, bind, platform. rewrite Hdata, Hdecode.
    reflexivity.
Qed.

Lemma normalize_failures_witness :
  normalizeImageInput (ImgString "missing/photo.png") node0 []
  = (Rejected (SystemError "ENOENT"), [EvReadFile "missing/photo.png"])
  /\ ((ImgString "missing/photo.png" = ImgOther
       /\ SystemError "ENOENT" = Error invalid_input_message)
      \/ (exists s, ImgString "missing/photo.png" = ImgString s
                    /\ prefix "data:" s = true
                    /\ Buffer_from_base64 node0 (data_uri_payload s)
                       = inl (SystemError "ENOENT"))
      \/ (exists s, ImgString "missing/photo.png" = ImgString s
                    /\ prefix "data:" s = false
                    /\ (has_path_separator s = true
                        \/ exists d, Buffer_from_base64 node0 (Some (Js.Str s)) = inl d)
                    /\ fs_readFile node0 s = inl (SystemError "ENOENT"))).
Proof.
  split.
  - exact (proj1 (proj2 (proj2 (normalize_failures node0 [])))
             "missing/photo.png" (SystemError "ENOENT")
             eq_refl (or_introl eq_refl) eq_refl).
  - exact (proj1 (normalize_failures node0 []) (ImgString "missing/photo.png")
             (SystemError "ENOENT") eq_refl).
Defined.

(** On Node a name without separators never reaches the file-path branch:
    "missing.png" is decoded, whether or not such a file exists. *)
Example bare_name_is_decoded :
  normalizeImageInput (ImgString "missing.png") node0 []
  = (Resolved (Base64.decode "missing.png"), []).
Proof. reflexivity. Qed.

(** ** Round trip *)

(** C9.  A binary input is returned as it is.  On the Node runtime, a data
    URI whose payload after the first comma is the base64 encoding of [b]
    normalizes to [b], and so does the plain base64 encoding of [b] when it
    contains no path separator. *)
Theorem normalize_round_trip (rf : string -> exn + Buffer)
    (rm : Trace -> Request -> exn + Response) (st ts : Js.value -> string)
    (t : Trace) :
  let P := node_platform rf rm st ts in
  (forall b, normalizeImageInput (ImgBuffer b) P t = (Resolved b, t))
  /\ (forall header b,
        includes "," header = false ->
        normalizeImageInput (ImgString (data_uri header b)) P t = (Resolved b, t))
  /\ (forall b,
        has_path_separator (Base64.encode b) = false ->
        normalizeImageInput (ImgString (Base64.encode b)) P t = (Resolved b, t)).
Proof.
  intros P. subst P. split; [|split].
  - reflexivity.
  - intros header b Hheader.
    unfold normalizeImageInput, bind, platform.
    rewrite (data_uri_is_marked header b).
    rewrite (data_uri_payload_encode header b Hheader).
    cbn. now rewrite Base64Facts.decode_encode.
  - intros b Hsep.
    rewrite (node_decodes_every_bare_text rf rm st ts _ t Hsep (encode_not_data_uri b)).
    now rewrite Base64Facts.decode_encode.
Qed.

Lemma normalize_round_trip_witness :
  normalizeImageInput (ImgString "data:image/png;base64,iVBORw==") node0 []
  = (Resolved [x89; x50; x4e; x47], [])
  /\ normalizeImageInput (ImgString "iVBORw==") node0 []
     = (Resolved [x89; x50; x4e; x47], []).
Proof.
  split.
  - exact (proj1 (proj2 (normalize_round_trip (files []) offline no_rendering
                           no_rendering []))
             "image/png;base64" [x89; x50; x4e; x47] eq_refl).
  - exact (proj2 (proj2 (normalize_round_trip (files []) offline no_rendering
                           no_rendering []))
             [x89; x50; x4e; x47] eq_refl).
Defined.

(** Without the side condition the third part fails: three [FF] octets
    encode to "////", which is taken for a path. *)
Example slashes_are_a_path :
  normalizeImageInput (ImgString (Base64.encode [xff; xff; xff])) node0 []
  = (Rejected (SystemError "ENOENT"), [EvReadFile "////"]).
Proof. reflexivity. Qed.

End NormalizeFacts.

(* ================================================================== *)
(** * The polling adapter *)

Module ReplicateFacts.
Import Providers.

Example replicate_succeeds_after_two_polls :
  fst (ReplicateProvider_generateImage 2 "prompt" [x01] "token"
         (replicate_platform job_succeeded) [])
  = Resolved [x89; x50; x4e; x47].
Proof. reflexivity. Qed.

(** With too few iterations explored the promise is still pending: the
    loop itself has no bound. *)
Example replicate_pending :
  fst (ReplicateProvider_generateImage 1 "prompt" [x01] "token"
         (replicate_platform job_succeeded) [])
  = Pending.
Proof. reflexivity. Qed.

(** C5, as stated, fails: "canceled" is a terminal status that is not a
    success, the remote reports the error "Canceled by user", and the adapter
    rejects with a message of its own that does not carry the remote's. *)
Lemma canceled_job_loses_remote_error :
  exists message,
    fst (ReplicateProvider_generateImage 2 "prompt" [x01] "token"
           (replicate_platform job_canceled) [])
    = Rejected (Error message)
    /\ message = replicate_no_image
    /\ JsString.includes "Canceled by user" message = false.
Proof. eexists. repeat split. Qed.

Section Polling.

Variables (P : Platform) (prompt : string) (referenceImage : Buffer)
          (apiKey : string) (t0 : Trace).

(** [job 0] is the JSON object answering the creation request, [job (S i)]
    the one answering the [i]-th status request; [n] is the first index at
    which the status has left the in-progress set. *)
Variables (job : nat -> list (string * Js.value)) (n : nat).

Let create : Request := replicate_create_request P prompt referenceImage apiKey.
Let t1 : Trace := EvFetch create :: t0.
Let ask : Request := replicate_status_request P (Js.lookup "id" (job 0)) apiKey.

Hypothesis Hkey : apiKey <> "".
Hypothesis Hcreate :
  exists r, remote P t0 create = inr r /\ ok r = true
            /\ body_json r = Some (Js.Obj (job 0)).
Hypothesis Hpoll :
  forall i, i < n ->
    exists r, remote P (EvSleep poll_interval :: polled ask t1 i) ask = inr r
              /\ body_json r = Some (Js.Obj (job (S i))).
Hypothesis Hbusy :
  forall i, i < n -> in_progress (Js.lookup "status" (job i)) = true.
Hypothesis Hdone : in_progress (Js.lookup "status" (job n)) = false.

Lemma poll_done (fuel : nat) (t : Trace) :
  replicate_poll fuel apiKey (Js.Obj (job 0)) (Js.Obj (job n)) P t
  = (Resolved (Js.Obj (job n)), t).
Proof.
  destruct fuel; cbn [replicate_poll]; unfold bind, lift, ret;
    cbn [Js.prop]; rewrite Hdone; reflexivity.
Qed.

Lemma poll_from (d : nat) :
  forall k fuel, k + d = n -> d <= fuel ->
    replicate_poll fuel apiKey (Js.Obj (job 0)) (Js.Obj (job k)) P (polled ask t1 k)
    = (Resolved (Js.Obj (job n)), polled ask t1 n).
Proof.
  induction d as [|d IH]; intros k fuel Hk Hfuel.
  - replace k with n by lia. apply poll_done.
  - destruct fuel as [|fuel]; [lia|].
    assert (Hlt : k < n) by lia.
    destruct (Hpoll k Hlt) as (r & Hr & Hjson).
    cbn [replicate_poll]. unfold bind, lift, ret, sleep, platform, fetch, json.
    cbn [Js.prop]. rewrite (Hbusy k Hlt).
    fold ask. rewrite Hr, Hjson.
    change (EvFetch ask :: EvSleep poll_interval :: polled ask t1 k)
      with (polled ask t1 (S k)).
    apply IH; lia.
Qed.

(** Up to the end of the loop: [n] rounds, each a wait of the fixed
    interval followed by one status request, and then the code after the
    loop runs on the first state that is not in progress. *)
Lemma replicate_runs_to_finish (fuel : nat) :
  n <= fuel ->
  ReplicateProvider_generateImage fuel prompt referenceImage apiKey P t0
  = replicate_finish (Js.Obj (job n)) P (polled ask t1 n).
Proof.
  intros Hfuel. unfold ReplicateProvider_generateImage.
  destruct (String.eqb_spec apiKey "") as [E|_]; [contradiction|].
  unfold JsString.truthy_string.
  destruct (String.eqb_spec apiKey "") as [E|_]; [contradiction|].
  cbn [negb]. destruct Hcreate as (r & Hr & Hok & Hjson).
  unfold bind at 1. unfold platform at 1. unfold bind at 1. unfold fetch at 1.
  fold create. rewrite Hr, Hok. cbn [negb].
  unfold bind at 1. unfold json. rewrite Hjson. unfold ret at 1.
  unfold bind at 1.
  change (EvFetch create :: t0) with (polled ask t1 0).
  rewrite (poll_from n 0 fuel eq_refl Hfuel). reflexivity.
Qed.

(** C5, amended.  The adapter re-fetches the job status, each time after
    the fixed wait of 1000 ms, until the status is neither "starting" nor
    "processing".  If the final status is "failed" it rejects with
    "Replicate prediction failed: " followed by the remote's error message
    ("Unknown error" when there is none).  On any other final status it
    rejects with "Replicate prediction did not return an image" when the
    output is absent or empty, and otherwise requests the first output URL
    and resolves with the bytes of the answer. *)
Theorem replicate_polling (fuel : nat) :
  n <= fuel ->
  let run := ReplicateProvider_generateImage fuel prompt referenceImage apiKey P t0 in
  let final := job n in
  let t_n := polled ask t1 n in
  (Js.is_string (Js.lookup "status" final) "failed" = true ->
     run = (Rejected (Error ("Replicate prediction failed: "
                             ++ ToString P (Js.or_else (Js.lookup "error" final)
                                              (Js.Str "Unknown error")))), t_n))
  /\ (Js.is_string (Js.lookup "status" final) "failed" = false ->
      Js.lookup "output" final = None \/ Js.lookup "output" final = Some (Js.Arr []) ->
      run = (Rejected (Error replicate_no_image), t_n))
  /\ (forall imageUrl rest r,
        Js.is_string (Js.lookup "status" final) "failed" = false ->
        Js.lookup "output" final = Some (Js.Arr (Js.Str imageUrl :: rest)) ->
        remote P t_n (get_request P (Some (Js.Str imageUrl))) = inr r ->
        run = (Resolved (body_bytes r),
               EvFetch (get_request P (Some (Js.Str imageUrl))) :: t_n)).
Proof.
  intros Hfuel run final t_n. subst run.
  rewrite (replicate_runs_to_finish fuel Hfuel). fold t_n. fold final.
  unfold replicate_finish, bind, platform, lift, ret, throw.
  cbn [Js.prop].
  split; [|split].
  - intros Hfailed. rewrite Hfailed. reflexivity.
  - intros Hfailed [Hout|Hout]; rewrite Hfailed, Hout; reflexivity.
  - intros imageUrl rest r Hfailed Hout Hr.
    rewrite Hfailed, Hout. cbn. unfold fetch. rewrite Hr. reflexivity.
Qed.

End Polling.

Lemma replicate_polling_witness :
  ReplicateProvider_generateImage 2 "prompt" [x01] "token"
    (replicate_platform job_succeeded) []
  = (Resolved [x89; x50; x4e; x47],
     EvFetch (get_request (replicate_platform job_succeeded)
                (Some (Js.Str "https://cdn.example/out.png")))
     :: polled (replicate_status_request (replicate_platform job_succeeded)
                  (Some (Js.Str "p1")) "token")
          [EvFetch (replicate_create_request (replicate_platform job_succeeded)
                      "prompt" [x01] "token")] 2).
Proof.
  assert (Hkey : "token"%string <> ""%string) by discriminate.
  refine (proj2 (proj2 (replicate_polling (replicate_platform job_succeeded)
                          "prompt" [x01] "token" [] scripted_job 2
                          Hkey _ _ _ _ 2 (le_n 2)))
            "https://cdn.example/out.png"%string []
            {| ok := true; body_json := None; body_text := "";
               body_bytes := [x89; x50; x4e; x47] |}
            eq_refl eq_refl eq_refl).
  - eexists. repeat split; reflexivity.
  - intros i Hi. destruct i as [|[|i]]; [eexists; split; reflexivity ..|lia].
  - intros i Hi. destruct i as [|[|i]]; [reflexivity ..|lia].
  - reflexivity.
Defined.

End ReplicateFacts.

(* ================================================================== *)
(** * The facade *)

Module EnhancerFacts.
Import ImageProcessor Providers Enhancer.

Example default_provider :
  new_MerchDesignEnhancer {| options_apiKey := "key"; options_provider := None |}
  = inr {| apiKey := "key"; provider := "nanobanana";
           aiProvider := NanoBananaProvider |}.
Proof. reflexivity. Qed.

Example unknown_provider :
  new_MerchDesignEnhancer
    {| options_apiKey := "key"; options_provider := Some "midjourney" |}
  = inl (Error "Unsupported provider: midjourney").
Proof. reflexivity. Qed.

(** The end-to-end scenario: a PNG buffer, a red shirt, and a transport
    that answers with a fixed PNG. *)
Example enhance_red_shirt :
  fst (enhanceImage 0
         {| apiKey := "key"; provider := "nanobanana";
            aiProvider := NanoBananaProvider |}
         {| image := ImgBuffer [x89; x50; x4e; x47; x0d; x0a];
            productType := SHIRT; color := Some "red" |}
         gemini_platform [])
  = Resolved {| result_image := [x89; x50; x4e; x47]; mimeType := "image/png" |}.
Proof. reflexivity. Qed.

(** C7.  A facade built by the constructor holds the credential it was
    given and the adapter the factory returns for its provider identity.
    enhanceImage is the composition: normalize the image; build the prompt
    from category and colour with the design flag always [true]; call the
    bound adapter once with that prompt, the normalized bytes and the stored
    credential; pair the generated bytes with their sniffed MIME type.  A
    rejection of either step is the rejection of the call, with the trace of
    effects up to it: nothing is retried and no other adapter is tried. *)
Theorem enhanceImage_pipeline :
  (forall options this,
      new_MerchDesignEnhancer options = inr this ->
      apiKey this = options_apiKey options
      /\ createAIProvider (provider this) = inr (aiProvider this))
  /\ (forall fuel this options P t,
        enhanceImage fuel this options P t
        = match normalizeImageInput (image options) P t with
          | (Resolved imageBuffer, t1) =>
              match generateImage fuel (aiProvider this)
                      (PromptBuilder.buildPrompt (productType options)
                         (color options) true)
                      imageBuffer (apiKey this) P t1 with
              | (Resolved enhanced, t2) =>
                  (Resolved {| result_image := enhanced;
                               mimeType := detectMimeType enhanced |}, t2)
              | (Rejected e, t2) => (Rejected e, t2)
              | (Pending, t2) => (Pending, t2)
              end
          | (Rejected e, t1) => (Rejected e, t1)
          | (Pending, t1) => (Pending, t1)
          end).
Proof.
  split.
  - intros options this. unfold new_MerchDesignEnhancer.
    destruct (createAIProvider _) as [e|a] eqn:E; [discriminate|].
    intros H. injection H as <-. cbn [apiKey provider aiProvider]. auto.
  - intros fuel this options P t. unfold enhanceImage, bind.
    destruct (normalizeImageInput (image options) P t) as [[b|e|] t1];
      reflexivity.
Qed.

Lemma enhanceImage_pipeline_witness :
  apiKey {| apiKey := "key"; provider := "replicate";
            aiProvider := ReplicateProvider |} = "key"
  /\ createAIProvider "replicate" = inr ReplicateProvider.
Proof.
  exact (proj1 enhanceImage_pipeline
           {| options_apiKey := "key"; options_provider := Some "replicate" |}
           {| apiKey := "key"; provider := "replicate";
              aiProvider := ReplicateProvider |}
           eq_refl).
Defined.

(** A failed normalization reaches no adapter: no request is issued. *)
Lemma enhanceImage_stops_at_normalization (fuel : nat)
    (this : MerchDesignEnhancer) (options : EnhanceImageOptions)
    (P : Platform) (t t1 : Trace) (e : exn) :
  normalizeImageInput (image options) P t = (Rejected e, t1) ->
  enhanceImage fuel this options P t = (Rejected e, t1)
  /\ network_calls t1 = network_calls t.
Proof.
  intros H. split.
  - unfold enhanceImage, bind. now rewrite H.
  - destruct (image options) as [b|s|]; cbn in H.
    + discriminate.
    + unfold bind, platform, readFile in H.
      destruct (prefix "data:" s);
        [destruct (Buffer_from_base64 P (data_uri_payload s))
        |destruct (negb (JsString.includes "/" s) && negb (JsString.includes "\" s));
         [destruct (Buffer_from_base64 P (Some (Js.Str s)))|];
         destruct (fs_readFile P s)];
        cbn in H; try discriminate H; injection H as _ <-; reflexivity.
    + injection H as _ <-. reflexivity.
Qed.

End EnhancerFacts.

(* ================================================================== *)
(** * Further properties: substrings of appended strings *)

Module StringFacts.
Import JsString.
Local Open Scope string_scope.

Lemma prefix_app (p s1 s2 : string) :
  prefix p s1 = true -> prefix p (s1 ++ s2) = true.
Proof.
  revert s1. induction p as [|a p IH]; intros s1 H.
  - now destruct (s1 ++ s2)%string.
  - destruct s1 as [|b s1]; [discriminate H|].
    cbn [append prefix] in *.
    destruct (ascii_dec a b); [now apply IH|discriminate H].
Qed.

Lemma includes_prefix (p s : string) : prefix p s = true -> includes p s = true.
Proof. intros H. destruct s; cbn [includes]; now rewrite H. Qed.

Lemma includes_here (p s : string) : includes p (p ++ s) = true.
Proof. apply includes_prefix, NormalizeFacts.prefix_append. Qed.

Lemma includes_app_r (p s1 s2 : string) :
  includes p s2 = true -> includes p (s1 ++ s2) = true.
Proof.
  intros H. induction s1 as [|c s1 IH]; [exact H|].
  cbn [append includes]. rewrite IH. apply Bool.orb_true_r.
Qed.

Lemma includes_app_l (p s1 s2 : string) :
  includes p s1 = true -> includes p (s1 ++ s2) = true.
Proof.
  induction s1 as [|c s1 IH]; intros H.
  - cbn [includes] in H. rewrite Bool.orb_false_r in H.
    apply includes_prefix. now apply (prefix_app p "" s2).
  - cbn [includes] in H. apply Bool.orb_true_iff in H as [H|H].
    + apply includes_prefix. now apply (prefix_app p (String c s1) s2).
    + cbn [append includes]. rewrite (IH H). apply Bool.orb_true_r.
Qed.

Lemma occurrences_skip (p s1 s2 : string) (k : nat) :
  k <= occurrences p s2 -> k <= occurrences p (s1 ++ s2).
Proof.
  intros H. induction s1 as [|c s1 IH]; [exact H|].
  cbn [append occurrences]. lia.
Qed.

Lemma occurrences_split (p s1 s2 : string) (k1 k2 : nat) :
  p <> "" ->
  k1 <= occurrences p s1 -> k2 <= occurrences p s2 ->
  k1 + k2 <= occurrences p (s1 ++ s2).
Proof.
  intros Hp. revert k1. induction s1 as [|c s1 IH]; intros k1 H1 H2.
  - cbn [occurrences] in H1. destruct p; [congruence|].
    cbn [prefix] in H1. cbn [append]. lia.
  - cbn [append occurrences] in *.
    destruct (prefix p (String c s1)) eqn:E.
    + pose proof (prefix_app p (String c s1) s2 E) as E'.
      cbn [append] in E'. rewrite E'.
      specialize (IH (k1 - 1)). lia.
    + specialize (IH k1).
      destruct (prefix p (String c (s1 ++ s2))); lia.
Qed.

Lemma occurrences_here (p s : string) : 1 <= occurrences p (p ++ s).
Proof.
  pose proof (NormalizeFacts.prefix_append p s) as H.
  destruct (p ++ s)%string; cbn [occurrences]; rewrite H; lia.
Qed.

Lemma occurrences_in_left (p x y z : string) :
  p <> "" -> 1 <= occurrences p ((x ++ p ++ y) ++ z).
Proof.
  intros Hp. apply (occurrences_split p _ _ 1 0 Hp); [|lia].
  apply occurrences_skip, occurrences_here.
Qed.

Lemma truthy_nonempty (s : string) : truthy_string s = true -> s <> "".
Proof. unfold truthy_string. now destruct (String.eqb_spec s ""). Qed.

(** Finds a pattern in a right-nested chain of appends: at the head of a
    segment, inside a literal segment, or further right. *)
Ltac find_substring :=
  repeat first
    [ apply includes_here
    | apply includes_app_l; vm_compute; reflexivity
    | apply includes_app_r ].

End StringFacts.

(* ================================================================== *)
(** * Further properties of the prompt builder *)

Module PromptBuilderMore.
Import JsString PromptBuilder StringFacts.
Local Open Scope string_scope.

Lemma colorDescription_of_color (c : string) :
  truthy_string c = true ->
  colorDescription_of (Some c) = " in " ++ c ++ " color".
Proof. intros H. unfold colorDescription_of. now rewrite H. Qed.

Lemma colorDescription_truthy (c : string) :
  truthy_string c = true -> truthy_string (colorDescription_of (Some c)) = true.
Proof. intros H. rewrite (colorDescription_of_color c H). reflexivity. Qed.

Ltac open_template :=
  unfold buildPrompt, buildClothingPrompt, buildCapPrompt, buildMugPrompt,
    buildStickerPadPrompt, buildToteBagPrompt, buildGenericPrompt;
  cbv zeta.

(** X1.  With [hasDesign = true] the prompt of every category, whatever the
    colour, contains the design-preservation clause; with [hasDesign = false]
    and no colour it does not. *)
Theorem design_clause_iff_flag (productType : ProductType) :
  (forall color, includes design_preservation_clause
                   (buildPrompt productType color true) = true)
  /\ includes design_preservation_clause (buildPrompt productType None false)
     = false.
Proof.
  split.
  - intros color. destruct productType; open_template; find_substring.
  - destruct productType; vm_compute; reflexivity.
Qed.

(** X2.  For every category, every design flag and every non-empty colour
    [c], the prompt contains the qualifier " in c color" and the fidelity
    clause ", especially the specified color"; so the colour occurs in it
    at least once. *)
Theorem color_clauses_any_color (productType : ProductType) (c : string)
    (hasDesign : bool) :
  truthy_string c = true ->
  let prompt := buildPrompt productType (Some c) hasDesign in
  includes (" in " ++ c ++ " color") prompt = true
  /\ includes color_fidelity_clause prompt = true
  /\ 1 <= occurrences c prompt.
Proof.
  intros Hc prompt. subst prompt.
  pose proof (colorDescription_truthy c Hc) as Ht.
  split; [|split].
  - destruct productType; open_template;
      rewrite (colorDescription_of_color c Hc); find_substring.
  - destruct productType; open_template; rewrite Ht; find_substring.
  - destruct productType; open_template;
      rewrite (colorDescription_of_color c Hc);
      repeat first
        [ apply occurrences_in_left; exact (truthy_nonempty c Hc)
        | apply occurrences_skip ].
Qed.

Lemma color_clauses_any_color_witness :
  includes " in #ff0000 color" (buildPrompt MUG (Some "#ff0000") false) = true
  /\ includes color_fidelity_clause (buildPrompt MUG (Some "#ff0000") false) = true
  /\ 1 <= occurrences "#ff0000" (buildPrompt MUG (Some "#ff0000") false).
Proof. exact (color_clauses_any_color MUG "#ff0000" false eq_refl). Defined.

(** X3.  A colour that is absent or the empty string leaves no trace: the
    prompt contains neither the fidelity clause nor the word "especially",
    and the two cases give the same prompt. *)
Theorem no_color_no_clause (productType : ProductType) (hasDesign : bool) :
  buildPrompt productType (Some "") hasDesign = buildPrompt productType None hasDesign
  /\ includes color_fidelity_clause (buildPrompt productType None hasDesign) = false
  /\ includes "especially" (buildPrompt productType (Some "") hasDesign) = false.
Proof.
  destruct productType, hasDesign; vm_compute; repeat split.
Qed.

(** X4.  For each of the ten categories of the enum, the prompt contains
    the display name the table [names] gives it, whatever the colour and
    the flag: the garment templates interpolate it, and the fixed text of
    the other four templates agrees with the table. *)
Theorem prompt_names_product (productType : ProductType)
    (color : option string) (hasDesign : bool) :
  In productType enum_members ->
  includes (getProductName productType) (buildPrompt productType color hasDesign)
  = true.
Proof.
  intros _.
  destruct productType; open_template; cbn [getProductName]; find_substring.
Qed.

Lemma prompt_names_product_witness :
  includes "ceramic mug" (buildPrompt MUG (Some "red") false) = true
  /\ includes "long sleeve shirt" (buildPrompt LONG_SLEEVE None true) = true.
Proof.
  split.
  - apply (prompt_names_product MUG (Some "red") false). cbn. tauto.
  - apply (prompt_names_product LONG_SLEEVE None true). cbn. tauto.
Defined.

(** X5.  Template dispatch: the six garments are staged on a hanger, the
    cap on a stand, the mug on a surface, the pad on a desk, the bag on a
    hook, and a tag outside the enum gets the generic staging; whatever the
    colour and the flag. *)
Theorem staging_by_category (productType : ProductType)
    (color : option string) (hasDesign : bool) :
  includes
    match productType with
    | HOODIE | SHIRT | TANK_TOP | LONG_SLEEVE | SWEATSHIRT | JACKET =>
        " hanging from an elegant golden or wooden hanger"
    | FACECAP => " displayed on an elegant cap stand or mannequin head"
    | MUG => " displayed on an elegant surface"
    | STICKER_PAD => " displayed on an elegant desk or table surface"
    | TOTE_BAG => " displayed hanging from an elegant hook"
    | UNKNOWN _ => " displayed in a luxury boutique setting"
    end
    (buildPrompt productType color hasDesign) = true.
Proof.
  destruct productType; open_template; find_substring.
Qed.

(** X6.  The single-template copy of the builder names a non-empty colour
    at least twice, whatever the category, and stages every category, the
    mug included, on a hanger. *)
Theorem single_template_color_twice (productType : ProductType) (c : string)
    (hasDesign : bool) :
  truthy_string c = true ->
  let prompt := SingleTemplatePromptBuilder.buildPrompt productType (Some c) hasDesign in
  2 <= occurrences c prompt
  /\ includes " hanging from an elegant golden or wooden hanger" prompt = true.
Proof.
  intros Hc prompt. subst prompt.
  unfold SingleTemplatePromptBuilder.buildPrompt. cbv zeta.
  rewrite (colorDescription_of_color c Hc), Hc.
  split.
  - do 2 apply occurrences_skip.
    apply (occurrences_split c _ _ 1 1 (truthy_nonempty c Hc)).
    + apply occurrences_skip, occurrences_here.
    + repeat first
        [ apply occurrences_in_left; exact (truthy_nonempty c Hc)
        | apply occurrences_skip ].
  - find_substring.
Qed.

Lemma single_template_color_twice_witness :
  2 <= occurrences "teal"
         (SingleTemplatePromptBuilder.buildPrompt MUG (Some "teal") true)
  /\ includes " hanging from an elegant golden or wooden hanger"
       (SingleTemplatePromptBuilder.buildPrompt MUG (Some "teal") true) = true.
Proof. exact (single_template_color_twice MUG "teal" true eq_refl). Defined.

End PromptBuilderMore.

(* ================================================================== *)
(** * Further properties of detectMimeType *)

Module MimeSniffMore.
Import MimeSniff.

Lemma byte_is_functional (buffer : Buffer) (i : nat) (a b : byte) :
  byte_is buffer i a = true -> byte_is buffer i b = true -> a = b.
Proof.
  unfold byte_is. destruct (nth_error buffer i) as [x|]; [|discriminate].
  intros Ha Hb. apply Byte.byte_dec_bl in Ha, Hb. congruence.
Qed.

Ltac clash :=
  match goal with
  | H1 : byte_is ?l ?i ?a = true, H2 : byte_is ?l ?i ?b = true |- _ =>
      pose proof (byte_is_functional l i a b H1 H2); discriminate
  end.

Ltac split_ands :=
  repeat match goal with
         | H : _ && _ = true |- _ => apply andb_prop in H as [? ?]
         end.

(** X7.  Outside the default, the answer identifies the signature: the
    result is "image/jpeg" exactly when the buffer starts with [FF D8],
    "image/gif" exactly when it starts with [47 49 46], and "image/webp"
    exactly when it starts with [52 49 46 46]; the last holds for any RIFF
    container, since the bytes after the fourth are not inspected. *)
Theorem mime_identifies_signature (buffer : Buffer) :
  (detectMimeType buffer = "image/jpeg" <-> starts_with buffer [xff; xd8] = true)
  /\ (detectMimeType buffer = "image/gif"
      <-> starts_with buffer [x47; x49; x46] = true)
  /\ (detectMimeType buffer = "image/webp"
      <-> starts_with buffer [x52; x49; x46; x46] = true).
Proof.
  rewrite MimeSniffFacts.starts_with_2, MimeSniffFacts.starts_with_3,
    MimeSniffFacts.starts_with_4.
  unfold detectMimeType.
  destruct (byte_is buffer 0 xff && byte_is buffer 1 xd8) eqn:J;
  destruct (byte_is buffer 0 x89 && byte_is buffer 1 x50
            && byte_is buffer 2 x4e && byte_is buffer 3 x47) eqn:Pn;
  destruct (byte_is buffer 0 x47 && byte_is buffer 1 x49
            && byte_is buffer 2 x46) eqn:G;
  destruct (byte_is buffer 0 x52 && byte_is buffer 1 x49
            && byte_is buffer 2 x46 && byte_is buffer 3 x46) eqn:W;
  (split; [|split]); split; intros H; try reflexivity; try discriminate H;
  split_ands; clash.
Qed.

(** X8.  Only the first four bytes matter: the result on a buffer is the
    result on its first four bytes, so data appended to a buffer of at
    least four bytes never changes its type. *)
Theorem mime_reads_four_bytes :
  (forall buffer, detectMimeType buffer = detectMimeType (firstn 4 buffer))
  /\ (forall buffer more,
        4 <= List.length buffer ->
        detectMimeType (buffer ++ more) = detectMimeType buffer).
Proof.
  assert (H4 : forall buffer, detectMimeType buffer = detectMimeType (firstn 4 buffer)).
  { intros [|a [|b [|c [|d r]]]]; reflexivity. }
  split; [exact H4|].
  intros buffer more Hlen.
  rewrite (H4 (buffer ++ more)), (H4 buffer).
  rewrite firstn_app.
  replace (4 - List.length buffer) with 0 by lia.
  cbn [firstn]. now rewrite app_nil_r.
Qed.

Lemma mime_reads_four_bytes_witness :
  detectMimeType ([x47; x49; x46; x38] ++ [x39; x61])
  = detectMimeType [x47; x49; x46; x38].
Proof.
  apply (proj2 mime_reads_four_bytes [x47; x49; x46; x38] [x39; x61]).
  cbn. lia.
Defined.

End MimeSniffMore.

(* ================================================================== *)
(** * Further properties of normalizeImageInput *)

Module NormalizeMore.
Import JsString ImageProcessor.
Local Open Scope string_scope.

Lemma normalize_effects_lemma (image : ImageInput) (P : Platform) (t : Trace) :
  let run := normalizeImageInput image P t in
  fst run <> Pending
  /\ network_calls (snd run) = network_calls t
  /\ (snd run = t \/ exists s, image = ImgString s /\ snd run = EvReadFile s :: t).
Proof.
  destruct image as [b|s|]; cbn zeta.
  - cbn. repeat split; [discriminate|now left].
  - unfold normalizeImageInput, bind, platform, readFile.
    destruct (prefix "data:" s);
      [destruct (Buffer_from_base64 P (data_uri_payload s))
      |destruct (negb (includes "/" s) && negb (includes "\" s));
       [destruct (Buffer_from_base64 P (Some (Js.Str s)))|];
       destruct (fs_readFile P s)];
      cbn; (repeat split; [discriminate|]); eauto.
  - cbn. repeat split; [discriminate|now left].
Qed.

(** X9.  normalizeImageInput always settles, never uses the network, and
    touches the file system at most once: the trace it returns is the one
    it was given, or that trace with one read of the input text in front. *)
Theorem normalize_effects (image : ImageInput) (P : Platform) (t : Trace) :
  let run := normalizeImageInput image P t in
  fst run <> Pending
  /\ network_calls (snd run) = network_calls t
  /\ (snd run = t \/ exists s, image = ImgString s /\ snd run = EvReadFile s :: t).
Proof. exact (normalize_effects_lemma image P t). Qed.

(** X10.  A text with a path separator (and without the "data:" marker) is
    never handed to the decoder: whatever the decoder would say, the file
    is read once and its contents are the result, byte for byte. *)
Theorem normalize_reads_path (P : Platform) (s : string) (content : Buffer)
    (t : Trace) :
  prefix "data:" s = false ->
  has_path_separator s = true ->
  fs_readFile P s = inr content ->
  normalizeImageInput (ImgString s) P t = (Resolved content, EvReadFile s :: t).
Proof.
  intros Hdata Hsep Hread.
  unfold normalizeImageInput, bind, platform, readFile.
  unfold has_path_separator in Hsep. rewrite Hdata.
  destruct (includes "/" s), (includes "\" s); try discriminate Hsep;
    cbn [negb andb]; rewrite Hread; reflexivity.
Qed.

Lemma normalize_reads_path_witness :
  normalizeImageInput (ImgString "./logo.png")
    (node_platform (files [("./logo.png", [x89; x50])]) offline
       no_rendering no_rendering) []
  = (Resolved [x89; x50], [EvReadFile "./logo.png"]).
Proof.
  exact (normalize_reads_path
           (node_platform (files [("./logo.png", [x89; x50])]) offline
              no_rendering no_rendering)
           "./logo.png" [x89; x50] [] eq_refl eq_refl eq_refl).
Defined.

(** X11.  On Node the decoder accepts every string, so a text without path
    separators (and without the "data:" marker) is always decoded and the
    file system is never consulted: a bare file name such as "logo.png" is
    not read, even when that file exists. *)
Theorem node_never_reads_bare_name (rf : string -> exn + Buffer)
    (rm : Trace -> Request -> exn + Response) (st ts : Js.value -> string)
    (s : string) (t : Trace) :
  has_path_separator s = false ->
  prefix "data:" s = false ->
  normalizeImageInput (ImgString s) (node_platform rf rm st ts) t
  = (Resolved (Base64.decode s), t).
Proof.
  intros Hsep Hdata.
  now rewrite (NormalizeFacts.bare_text_equation _ s t Hsep Hdata).
Qed.

Lemma node_never_reads_bare_name_witness :
  normalizeImageInput (ImgString "logo.png")
    (node_platform (files [("logo.png", [x89; x50; x4e; x47])]) offline
       no_rendering no_rendering) []
  = (Resolved (Base64.decode "logo.png"), []).
Proof.
  exact (node_never_reads_bare_name
           (files [("logo.png", [x89; x50; x4e; x47])]) offline
           no_rendering no_rendering "logo.png" [] eq_refl eq_refl).
Defined.

(** X12.  A text that begins with "data:" and has no comma is rejected on
    Node with a TypeError (the payload [split(',')[1]] is undefined), at
    once and without a file read, even if it names an existing file. *)
Theorem data_marker_without_comma (rf : string -> exn + Buffer)
    (rm : Trace -> Request -> exn + Response) (st ts : Js.value -> string)
    (s : string) (t : Trace) :
  prefix "data:" s = true ->
  includes "," s = false ->
  exists message,
    normalizeImageInput (ImgString s) (node_platform rf rm st ts) t
    = (Rejected (TypeError message), t).
Proof.
  intros Hdata Hcomma.
  unfold normalizeImageInput, bind, platform. rewrite Hdata.
  unfold data_uri_payload.
  rewrite (NormalizeFacts.split_without "," s Hcomma).
  eexists. reflexivity.
Qed.

Lemma data_marker_without_comma_witness :
  exists message,
    normalizeImageInput (ImgString "data:image.png")
      (node_platform (files [("data:image.png", [x89; x50])]) offline
         no_rendering no_rendering) []
    = (Rejected (TypeError message), []).
Proof.
  exact (data_marker_without_comma
           (files [("data:image.png", [x89; x50])]) offline
           no_rendering no_rendering "data:image.png" [] eq_refl eq_refl).
Defined.

(** X13.  Of a data URI only the text between the first and the second
    comma is decoded: whatever follows a second comma is dropped. *)
Theorem data_uri_second_comma (P : Platform) (header payload rest : string)
    (t : Trace) :
  includes "," header = false ->
  includes "," payload = false ->
  normalizeImageInput
    (ImgString ("data:" ++ header ++ "," ++ payload ++ "," ++ rest)) P t
  = normalizeImageInput (ImgString ("data:" ++ header ++ "," ++ payload)) P t
  /\ normalizeImageInput (ImgString ("data:" ++ header ++ "," ++ payload)) P t
     = (match Buffer_from_base64 P (Some (Js.Str payload)) with
        | inr b => Resolved b
        | inl e => Rejected e
        end, t).
Proof.
  intros Hh Hp.
  assert (H1 : data_uri_payload ("data:" ++ header ++ "," ++ payload ++ "," ++ rest)
               = Some (Js.Str payload)).
  { unfold data_uri_payload.
    change ("," ++ payload ++ "," ++ rest) with (String "," (payload ++ String "," rest)).
    cbn [append split Ascii.eqb Bool.eqb].
    rewrite (NormalizeFacts.split_at_first "," header _ Hh).
    rewrite (NormalizeFacts.split_at_first "," payload _ Hp). reflexivity. }
  assert (H2 : data_uri_payload ("data:" ++ header ++ "," ++ payload)
               = Some (Js.Str payload)).
  { unfold data_uri_payload.
    change ("," ++ payload) with (String "," payload).
    cbn [append split Ascii.eqb Bool.eqb].
    rewrite (NormalizeFacts.split_at_first "," header _ Hh).
    rewrite (NormalizeFacts.split_without "," payload Hp). reflexivity. }
  unfold normalizeImageInput, bind, platform.
  rewrite !NormalizeFacts.prefix_append, H1, H2.
  destruct (Buffer_from_base64 P (Some (Js.Str payload))); split; reflexivity.
Qed.

Lemma data_uri_second_comma_witness :
  normalizeImageInput (ImgString "data:image/png;base64,QUJD,QUJD") node0 []
  = normalizeImageInput (ImgString "data:image/png;base64,QUJD") node0 []
  /\ normalizeImageInput (ImgString "data:image/png;base64,QUJD") node0 []
     = (Resolved ["A"%byte; "B"%byte; "C"%byte], []).
Proof.
  exact (data_uri_second_comma node0 "image/png;base64" "QUJD" "QUJD" []
           eq_refl eq_refl).
Defined.

End NormalizeMore.

(* ================================================================== *)
(** * Further properties of the single-shot adapters *)

Module AdapterFacts.
Import Providers Scripts.
Local Open Scope string_scope.

Ltac run_m :=
  cbv beta iota zeta
    delta [bind lift ret throw platform json json_or_unknown fetch sleep
           Js.prop Js.opt_prop Js.first nth_error negb ToString].

Ltac run_with H := run_m; rewrite H.

Ltac case_matches :=
  repeat match goal with
         | |- context [match ?x with _ => _ end] => destruct x eqn:?
         end.

Lemma with_key (apiKey : string) :
  JsString.truthy_string apiKey = true ->
  negb (JsString.truthy_string apiKey) = false.
Proof. now intros ->. Qed.

(** X14.  The image-to-image adapter makes one request in every case.  An
    accepted response is returned byte for byte, whatever it contains; a
    refused one rejects with "Stability AI API error: " followed by the
    response text; a failed transport rejects with the transport's own
    error. *)
Theorem stability_single_round_trip (prompt : string) (referenceImage : Buffer)
    (apiKey : string) (P : Platform) (t : Trace) :
  JsString.truthy_string apiKey = true ->
  let request := stability_request prompt referenceImage apiKey in
  StabilityAIProvider_generateImage prompt referenceImage apiKey P t
  = (match remote P t request with
     | inr r => if ok r then Resolved (body_bytes r)
                else Rejected (Error ("Stability AI API error: " ++ body_text r))
     | inl e => Rejected e
     end, EvFetch request :: t).
Proof.
  intros Hkey request. unfold StabilityAIProvider_generateImage.
  subst request. rewrite (with_key apiKey Hkey). run_m.
  destruct (remote P t _) as [e|r]; [reflexivity|].
  destruct (ok r); reflexivity.
Qed.

Lemma stability_single_round_trip_witness :
  StabilityAIProvider_generateImage "prompt" [x01] "key" unauthorized_platform []
  = (Rejected (Error "Stability AI API error: Unauthorized"),
     [EvFetch (stability_request "prompt" [x01] "key")]).
Proof.
  exact (stability_single_round_trip "prompt" [x01] "key" unauthorized_platform []
           eq_refl).
Defined.

(** X15.  The vision-plus-generation adapter stops at the first failure: if
    the description request is refused, it rejects with "OpenAI Vision API
    error: " followed by the rendered error body ({ error: 'Unknown error' }
    when the body is not JSON), and the generation request is never sent. *)
Theorem openai_stops_after_vision_failure (prompt : string)
    (referenceImage : Buffer) (apiKey : string) (P : Platform) (t : Trace)
    (r : Response) :
  JsString.truthy_string apiKey = true ->
  remote P t (openai_vision_request P referenceImage apiKey) = inr r ->
  ok r = false ->
  OpenAIProvider_generateImage prompt referenceImage apiKey P t
  = (Rejected (Error ("OpenAI Vision API error: "
                      ++ JSON_stringify P
                           match body_json r with
                           | Some v => v
                           | None => Js.Obj [("error", Js.Str "Unknown error")]
                           end)),
     [EvFetch (openai_vision_request P referenceImage apiKey)] ++ t)%list.
Proof.
  intros Hkey Hr Hok. unfold OpenAIProvider_generateImage.
  rewrite (with_key apiKey Hkey). run_with Hr. run_with Hok. reflexivity.
Qed.

Lemma openai_stops_after_vision_failure_witness :
  OpenAIProvider_generateImage "prompt" [x01] "key" unauthorized_platform []
  = (Rejected (Error "OpenAI Vision API error: [object Object]"),
     [EvFetch (openai_vision_request unauthorized_platform [x01] "key")]).
Proof.
  exact (openai_stops_after_vision_failure "prompt" [x01] "key"
           unauthorized_platform []
           {| ok := false; body_json := None; body_text := "Unauthorized";
              body_bytes := [] |}
           eq_refl eq_refl eq_refl).
Defined.

(** X16.  On success the vision-plus-generation adapter makes two requests
    in sequence.  The second carries no image: its prompt is the caller's
    prompt, a blank line, and an "IMPORTANT" paragraph quoting the
    description returned by the first; the result is the decoding of the
    [b64_json] field of the first generated item. *)
Theorem openai_two_round_trips (prompt : string) (referenceImage : Buffer)
    (apiKey : string) (P : Platform) (t : Trace)
    (r1 r2 : Response) (f1 c m f2 d : list (string * Js.value))
    (cs ds : list Js.value) (description b64 : string) :
  JsString.truthy_string apiKey = true ->
  let vision := openai_vision_request P referenceImage apiKey in
  let enhancedPrompt :=
    prompt ++ LF ++ LF
    ++ "IMPORTANT: The product must have the following design elements exactly as described: "
    ++ description
    ++ ". These design elements must be preserved exactly - do not alter, modify, or change them in any way." in
  let generation := openai_image_request P enhancedPrompt apiKey in
  remote P t vision = inr r1 -> ok r1 = true ->
  body_json r1 = Some (Js.Obj f1) ->
  Js.lookup "choices" f1 = Some (Js.Arr (Js.Obj c :: cs)) ->
  Js.lookup "message" c = Some (Js.Obj m) ->
  Js.lookup "content" m = Some (Js.Str description) ->
  remote P (EvFetch vision :: t) generation = inr r2 -> ok r2 = true ->
  body_json r2 = Some (Js.Obj f2) ->
  Js.lookup "data" f2 = Some (Js.Arr (Js.Obj d :: ds)) ->
  Js.lookup "b64_json" d = Some (Js.Str b64) ->
  OpenAIProvider_generateImage prompt referenceImage apiKey P t
  = (match Buffer_from_base64 P (Some (Js.Str b64)) with
     | inr b => Resolved b
     | inl e => Rejected e
     end, EvFetch generation :: EvFetch vision :: t).
Proof.
  intros Hkey vision enhancedPrompt generation
    Hr1 Hok1 Hj1 Hchoices Hmessage Hcontent Hr2 Hok2 Hj2 Hdata Hb64.
  subst vision enhancedPrompt generation.
  unfold OpenAIProvider_generateImage.
  rewrite (with_key apiKey Hkey).
  run_with Hr1. run_with Hok1. run_with Hj1. run_with Hchoices.
  run_with Hmessage. run_with Hcontent.
  run_with Hr2. run_with Hok2. run_with Hj2. run_with Hdata. run_with Hb64.
  destruct (Buffer_from_base64 P (Some (Js.Str b64))); reflexivity.
Qed.

Lemma openai_two_round_trips_witness :
  fst (OpenAIProvider_generateImage "prompt" [x01] "key" openai_platform [])
  = Resolved [x89; x50; x4e; x47].
Proof.
  refine (f_equal fst
            (openai_two_round_trips "prompt" [x01] "key" openai_platform []
               _ _ _ _ _ _ _ _ _ "A red fox logo" "iVBORw=="
               eq_refl eq_refl eq_refl eq_refl eq_refl eq_refl eq_refl
               eq_refl eq_refl eq_refl eq_refl eq_refl)).
Defined.

End AdapterFacts.

(* ================================================================== *)
(** * Effect budgets *)

Module BudgetFacts.
Import Providers Scripts.

Lemma file_reads_app (a b : Trace) :
  file_reads (a ++ b) = file_reads a + file_reads b.
Proof. unfold file_reads. now rewrite filter_app, length_app. Qed.

Lemma network_calls_app (a b : Trace) :
  network_calls (a ++ b) = network_calls a + network_calls b.
Proof. unfold network_calls. now rewrite filter_app, length_app. Qed.

Lemma time_slept_app (a b : Trace) :
  time_slept (a ++ b) = (time_slept a + time_slept b)%N.
Proof.
  unfold time_slept. induction a as [|e a IH]; [reflexivity|].
  cbn [app fold_right]. rewrite IH. destruct e; lia.
Qed.

Section Within.
Context {A B : Type}.

Lemma within_weaken (r q r' q' : nat) (w w' : N) (m : M A) :
  within r q w m -> r <= r' -> q <= q' -> (w <= w')%N -> within r' q' w' m.
Proof.
  intros H Hr Hq Hw P t. destruct (H P t) as (added & E & H1 & H2 & H3).
  exists added. repeat split; try lia. exact E.
Qed.

Lemma within_leaf (r q : nat) (w : N) (m : M A) :
  within 0 0 0 m -> within r q w m.
Proof. intros H. apply (within_weaken 0 0 r q 0 w m H); lia. Qed.

Lemma within_ret (a : A) : within 0 0 0 (ret a).
Proof. intros P t. exists []. cbn. repeat split; lia. Qed.

Lemma within_throw (e : exn) : within 0 0 0 (@throw A e).
Proof. intros P t. exists []. cbn. repeat split; lia. Qed.

Lemma within_pending : within 0 0 0 (@pending A).
Proof. intros P t. exists []. cbn. repeat split; lia. Qed.

Lemma within_lift (x : exn + A) : within 0 0 0 (lift x).
Proof. destruct x; [apply within_throw|apply within_ret]. Qed.

Lemma within_bind (r1 q1 r2 q2 : nat) (w1 w2 : N) (m : M A) (k : A -> M B) :
  within r1 q1 w1 m ->
  (forall a, within r2 q2 w2 (k a)) ->
  within (r1 + r2) (q1 + q2) (w1 + w2) (bind m k).
Proof.
  intros Hm Hk P t. unfold bind.
  destruct (Hm P t) as (a1 & E1 & R1 & Q1 & W1).
  destruct (m P t) as [[a|e|] t1]; cbn [snd] in E1; subst t1.
  - destruct (Hk a P (a1 ++ t)%list) as (a2 & E2 & R2 & Q2 & W2).
    exists (a2 ++ a1)%list. rewrite E2, app_assoc.
    rewrite file_reads_app, network_calls_app, time_slept_app.
    repeat split; lia.
  - exists a1. cbn [snd]. repeat split; lia.
  - exists a1. cbn [snd]. repeat split; lia.
Qed.

Lemma within_bind_quiet (r q : nat) (w : N) (m : M A) (k : A -> M B) :
  within 0 0 0 m -> (forall a, within r q w (k a)) -> within r q w (bind m k).
Proof. intros Hm Hk. exact (within_bind 0 0 r q 0 w m k Hm Hk). Qed.

End Within.

Lemma within_platform : within 0 0 0 platform.
Proof. intros P t. exists []. cbn. repeat split; lia. Qed.

Lemma within_json (r : Response) : within 0 0 0 (json r).
Proof. unfold json. destruct (body_json r); [apply within_ret|apply within_throw]. Qed.

Lemma within_fetch (request : Request) : within 0 1 0 (fetch request).
Proof.
  intros P t. exists [EvFetch request]. unfold fetch.
  destruct (remote P t request); cbn; repeat split; lia.
Qed.

Lemma within_sleep (ms : N) : within 0 0 ms (sleep ms).
Proof. intros P t. exists [EvSleep ms]. cbn. repeat split; lia. Qed.

Lemma within_readFile (path : string) : within 1 0 0 (readFile path).
Proof.
  intros P t. exists [EvReadFile path]. unfold readFile.
  destruct (fs_readFile P path); cbn; repeat split; lia.
Qed.

Lemma within_bind_fetch {B : Type} (r q : nat) (w : N) (request : Request)
    (k : Response -> M B) :
  (forall a, within r q w (k a)) -> within r (S q) w (bind (fetch request) k).
Proof.
  intros Hk. exact (within_bind 0 1 r q 0 w _ k (within_fetch request) Hk).
Qed.

Lemma within_bind_sleep {B : Type} (r q : nat) (w ms : N) (k : unit -> M B) :
  (forall a, within r q w (k a)) -> within r q (ms + w) (bind (sleep ms) k).
Proof.
  intros Hk. exact (within_bind 0 0 r q ms w _ k (within_sleep ms) Hk).
Qed.

Ltac quiet :=
  first [ apply within_ret | apply within_throw | apply within_lift
        | apply within_platform | apply within_json | apply within_pending ].

Ltac budget :=
  repeat first
    [ apply within_leaf; quiet
    | apply within_bind_fetch; intros
    | apply within_bind_quiet; [quiet|intros]
    | match goal with
      | |- within _ _ _ (if ?c then _ else _) => destruct c
      end ].

Lemma replicate_finish_within (result : Js.value) :
  within 0 1 0 (replicate_finish result).
Proof. unfold replicate_finish. budget. Qed.

Lemma replicate_poll_within (fuel : nat) (apiKey : string)
    (prediction result : Js.value) :
  within 0 fuel (poll_interval * N.of_nat fuel)
    (replicate_poll fuel apiKey prediction result).
Proof.
  revert result. induction fuel as [|fuel IH]; intros result;
    cbn [replicate_poll].
  - budget.
  - apply within_bind_quiet; [quiet|intros status].
    destruct (in_progress status); [|budget].
    apply (within_weaken 0 (S fuel) 0 (S fuel)
             (poll_interval + poll_interval * N.of_nat fuel)); try lia.
    apply within_bind_sleep; intros _.
    apply within_bind_quiet; [quiet|intros P].
    apply within_bind_quiet; [quiet|intros id].
    apply within_bind_fetch; intros statusResponse.
    apply within_bind_quiet; [quiet|intros result'].
    apply IH.
Qed.

Lemma generateImage_within (fuel : nat) (provider : AIProvider)
    (prompt : string) (referenceImage : Buffer) (apiKey : string) :
  within 0 (request_budget fuel provider) (wait_budget fuel provider)
    (generateImage fuel provider prompt referenceImage apiKey).
Proof.
  destruct provider; cbn [generateImage request_budget wait_budget].
  - unfold NanoBananaProvider_generateImage. cbv zeta. budget.
  - unfold OpenAIProvider_generateImage. cbv zeta. budget.
  - unfold StabilityAIProvider_generateImage. cbv zeta. budget.
  - unfold ReplicateProvider_generateImage. cbv zeta.
    destruct (negb (JsString.truthy_string apiKey)); [budget|].
    apply within_bind_quiet; [quiet|intros P].
    replace (fuel + 2) with (S (fuel + 1)) by lia.
    apply within_bind_fetch; intros response.
    destruct (negb (ok response)); [budget|].
    apply within_bind_quiet; [quiet|intros prediction].
    apply (within_weaken 0 (fuel + 1) 0 (fuel + 1)
             (poll_interval * N.of_nat fuel + 0)); try lia.
    apply (within_bind 0 fuel 0 1 (poll_interval * N.of_nat fuel) 0).
    + apply replicate_poll_within.
    + intros result. apply replicate_finish_within.
Qed.

Lemma normalize_within (image : ImageProcessor.ImageInput) :
  within 1 0 0 (ImageProcessor.normalizeImageInput image).
Proof.
  destruct image as [b|s|]; unfold ImageProcessor.normalizeImageInput.
  - budget.
  - destruct (prefix "data:" s); [budget|].
    apply within_bind_quiet; [quiet|intros P].
    cbv zeta.
    match goal with
    | |- within _ _ _ (match ?d with _ => _ end) => destruct d
    end; [budget|apply within_readFile].
  - budget.
Qed.

(** X17.  No adapter ever reads a file, and each keeps to a request budget
    whatever the remote answers: one request for the default generator and
    the image-to-image adapter, two for vision-plus-generation, and for the
    polling adapter one creation, one status request per round of polling
    and one image download; only the polling adapter waits, the fixed
    interval once per round. *)
Theorem adapters_keep_budget (fuel : nat) (provider : AIProvider)
    (prompt : string) (referenceImage : Buffer) (apiKey : string) :
  within 0
    match provider with
    | ReplicateProvider => fuel + 2
    | OpenAIProvider => 2
    | _ => 1
    end
    match provider with
    | ReplicateProvider => (1000 * N.of_nat fuel)%N
    | _ => 0%N
    end
    (generateImage fuel provider prompt referenceImage apiKey).
Proof. exact (generateImage_within fuel provider prompt referenceImage apiKey). Qed.

(** X22.  One call of enhanceImage reads at most one file, and spends on the
    network no more than the budget of its adapter: at most two requests
    and no waiting, or, with the polling adapter, two requests plus one
    status request and one wait of the fixed interval per round. *)
Theorem enhanceImage_keeps_budget (fuel : nat)
    (this : Enhancer.MerchDesignEnhancer) (options : Enhancer.EnhanceImageOptions) :
  within 1
    match Enhancer.aiProvider this with
    | ReplicateProvider => fuel + 2
    | _ => 2
    end
    match Enhancer.aiProvider this with
    | ReplicateProvider => (1000 * N.of_nat fuel)%N
    | _ => 0%N
    end
    (Enhancer.enhanceImage fuel this options).
Proof.
  unfold Enhancer.enhanceImage. cbv zeta.
  apply (within_weaken
           (1 + (0 + 0))
           (0 + (request_budget fuel (Enhancer.aiProvider this) + 0)) _ _
           (0 + (wait_budget fuel (Enhancer.aiProvider this) + 0))).
  - apply within_bind; [apply normalize_within|intros imageBuffer].
    apply within_bind; [apply generateImage_within|intros img].
    apply within_ret.
  - lia.
  - destruct (Enhancer.aiProvider this); cbn; lia.
  - destruct (Enhancer.aiProvider this); cbn; lia.
Qed.

End BudgetFacts.

(* ================================================================== *)
(** * Further properties of the default generator *)

Module NanoBananaFacts.
Import Providers Scripts.
Local Open Scope string_scope.

Ltac run_m :=
  cbv beta iota zeta
    delta [bind lift ret throw platform json json_or_unknown fetch sleep
           Js.prop Js.opt_prop Js.first nth_error negb ToString
           opt_find_inlineData Js.truthy].

Ltac run_with H := run_m; rewrite H.

Lemma find_inlineData_skips (texts : list Js.value) (rest : list Js.value) :
  Forall text_only texts ->
  find_inlineData (texts ++ rest)%list = find_inlineData rest.
Proof.
  induction 1 as [|part texts (fields & -> & Hfalsy) _ IH]; [reflexivity|].
  cbn [app find_inlineData Js.prop]. now rewrite Hfalsy.
Qed.

Lemma find_inlineData_none (texts : list Js.value) :
  Forall text_only texts -> find_inlineData texts = inr None.
Proof.
  intros H. rewrite <- (app_nil_r texts). now rewrite find_inlineData_skips.
Qed.

(** X18.  From an accepted response the default generator returns the
    first part of the first candidate that carries inline data, decoded
    from base64: text parts in front of it are skipped, parts and
    candidates after it are ignored. *)
Theorem nanobanana_first_inline_image (prompt : string) (referenceImage : Buffer)
    (apiKey : string) (P : Platform) (t : Trace) (r : Response)
    (body candidate content part inlineData : list (string * Js.value))
    (candidates texts rest : list Js.value) (data : string) :
  JsString.truthy_string apiKey = true ->
  let request := nanobanana_request P prompt referenceImage apiKey in
  remote P t request = inr r -> ok r = true ->
  body_json r = Some (Js.Obj body) ->
  Js.lookup "candidates" body = Some (Js.Arr (Js.Obj candidate :: candidates)) ->
  Js.lookup "content" candidate = Some (Js.Obj content) ->
  Js.lookup "parts" content = Some (Js.Arr (texts ++ Js.Obj part :: rest)%list) ->
  Forall text_only texts ->
  Js.lookup "inlineData" part = Some (Js.Obj inlineData) ->
  Js.lookup "data" inlineData = Some (Js.Str data) ->
  JsString.truthy_string data = true ->
  NanoBananaProvider_generateImage prompt referenceImage apiKey P t
  = (match Buffer_from_base64 P (Some (Js.Str data)) with
     | inr b => Resolved b
     | inl e => Rejected e
     end, EvFetch request :: t).
Proof.
  intros Hkey request Hr Hok Hbody Hcands Hcontent Hparts Htexts Hinline Hdata Htruthy.
  subst request. unfold NanoBananaProvider_generateImage.
  rewrite (AdapterFacts.with_key apiKey Hkey).
  run_with Hr. run_with Hok. run_with Hbody. run_with Hcands.
  run_with Hcontent. run_with Hparts.
  rewrite (find_inlineData_skips texts _ Htexts).
  cbn [find_inlineData Js.prop]. rewrite Hinline. cbn [Js.truthy].
  run_with Hinline. run_with Hdata. run_with Htruthy. run_m.
  destruct (Buffer_from_base64 P (Some (Js.Str data))); reflexivity.
Qed.

Lemma nanobanana_first_inline_image_witness :
  fst (NanoBananaProvider_generateImage "prompt" [x01] "key" gemini_platform [])
  = Resolved [x89; x50; x4e; x47].
Proof.
  refine (f_equal fst
            (nanobanana_first_inline_image "prompt" [x01] "key" gemini_platform []
               _ _ _ _ _ _ []
               [Js.Obj [("text", Js.Str "Here is the mockup.")]] []
               "iVBORw=="
               eq_refl eq_refl eq_refl eq_refl eq_refl eq_refl eq_refl
               _ eq_refl eq_refl eq_refl)).
  constructor; [|constructor]. eexists. split; reflexivity.
Defined.

(** X19.  An accepted response without an image rejects with "Nano Banana
    API did not return an image": so it is when the candidate list is empty
    and when no part of the first candidate carries inline data.  A body
    without a [candidates] field at all is a TypeError instead. *)
Theorem nanobanana_no_image (prompt : string) (referenceImage : Buffer)
    (apiKey : string) (P : Platform) (t : Trace) (r : Response)
    (body : list (string * Js.value)) :
  JsString.truthy_string apiKey = true ->
  let request := nanobanana_request P prompt referenceImage apiKey in
  let run := NanoBananaProvider_generateImage prompt referenceImage apiKey P t in
  let no_image := (Rejected (Error "Nano Banana API did not return an image"),
                   EvFetch request :: t) in
  remote P t request = inr r -> ok r = true ->
  body_json r = Some (Js.Obj body) ->
  (Js.lookup "candidates" body = Some (Js.Arr []) -> run = no_image)
  /\ (forall candidate candidates content texts,
        Js.lookup "candidates" body
        = Some (Js.Arr (Js.Obj candidate :: candidates)) ->
        Js.lookup "content" candidate = Some (Js.Obj content) ->
        Js.lookup "parts" content = Some (Js.Arr texts) ->
        Forall text_only texts ->
        run = no_image)
  /\ (Js.lookup "candidates" body = None ->
      exists message, run = (Rejected (TypeError message), EvFetch request :: t)).
Proof.
  intros Hkey request run no_image Hr Hok Hbody.
  subst request run no_image. unfold NanoBananaProvider_generateImage.
  rewrite (AdapterFacts.with_key apiKey Hkey).
  run_with Hr. run_with Hok. run_with Hbody.
  split; [|split].
  - intros Hcands. run_with Hcands. reflexivity.
  - intros candidate candidates content texts Hcands Hcontent Hparts Htexts.
    run_with Hcands. run_with Hcontent. run_with Hparts.
    rewrite (find_inlineData_none texts Htexts). reflexivity.
  - intros Hcands. run_with Hcands. eexists. reflexivity.
Qed.

Lemma nanobanana_no_image_witness :
  NanoBananaProvider_generateImage "prompt" [x01] "key" empty_candidates_platform []
  = (Rejected (Error "Nano Banana API did not return an image"),
     [EvFetch (nanobanana_request empty_candidates_platform "prompt" [x01] "key")]).
Proof.
  refine (proj1 (nanobanana_no_image "prompt" [x01] "key"
                   empty_candidates_platform [] _ _
                   eq_refl eq_refl eq_refl eq_refl) eq_refl).
Defined.

End NanoBananaFacts.

(* ================================================================== *)
(** * Further properties of the polling adapter *)

Module ReplicateMore.
Import Providers Scripts.
Local Open Scope string_scope.

(** X20.  A refused creation request rejects with "Replicate API error: "
    followed by the rendered error body; no status is ever polled and the
    adapter does not wait. *)
Theorem replicate_creation_refused (fuel : nat) (prompt : string)
    (referenceImage : Buffer) (apiKey : string) (P : Platform) (t : Trace)
    (r : Response) :
  JsString.truthy_string apiKey = true ->
  let request := replicate_create_request P prompt referenceImage apiKey in
  remote P t request = inr r -> ok r = false ->
  ReplicateProvider_generateImage fuel prompt referenceImage apiKey P t
  = (Rejected (Error ("Replicate API error: "
                      ++ JSON_stringify P
                           match body_json r with
                           | Some v => v
                           | None => Js.Obj [("error", Js.Str "Unknown error")]
                           end)),
     EvFetch request :: t).
Proof.
  intros Hkey request Hr Hok. subst request.
  unfold ReplicateProvider_generateImage.
  rewrite (AdapterFacts.with_key apiKey Hkey).
  AdapterFacts.run_with Hr. AdapterFacts.run_with Hok. reflexivity.
Qed.

Lemma replicate_creation_refused_witness :
  ReplicateProvider_generateImage 5 "prompt" [x01] "token" unauthorized_platform []
  = (Rejected (Error "Replicate API error: [object Object]"),
     [EvFetch (replicate_create_request unauthorized_platform "prompt" [x01] "token")]).
Proof.
  exact (replicate_creation_refused 5 "prompt" [x01] "token"
           unauthorized_platform []
           {| ok := false; body_json := None; body_text := "Unauthorized";
              body_bytes := [] |}
           eq_refl eq_refl eq_refl).
Defined.

Section Stuck.

Variables (P : Platform) (prompt : string) (referenceImage : Buffer)
          (apiKey : string) (t0 : Trace).
Variable job : nat -> list (string * Js.value).

Let create : Request := replicate_create_request P prompt referenceImage apiKey.
Let t1 : Trace := EvFetch create :: t0.
Let ask : Request := replicate_status_request P (Js.lookup "id" (job 0)) apiKey.

Hypothesis Hkey : JsString.truthy_string apiKey = true.
Hypothesis Hcreate :
  exists r, remote P t0 create = inr r /\ ok r = true
            /\ body_json r = Some (Js.Obj (job 0)).
Hypothesis Hpoll :
  forall i,
    exists r, remote P (EvSleep poll_interval :: polled ask t1 i) ask = inr r
              /\ body_json r = Some (Js.Obj (job (S i))).
Hypothesis Hbusy : forall i, in_progress (Js.lookup "status" (job i)) = true.

Lemma poll_stuck (fuel : nat) :
  forall k,
    replicate_poll fuel apiKey (Js.Obj (job 0)) (Js.Obj (job k)) P (polled ask t1 k)
    = (Pending, polled ask t1 (k + fuel)).
Proof.
  induction fuel as [|fuel IH]; intros k; cbn [replicate_poll].
  - AdapterFacts.run_with (Hbusy k). unfold pending.
    now rewrite Nat.add_0_r.
  - destruct (Hpoll k) as (r & Hr & Hjson).
    AdapterFacts.run_with (Hbusy k). fold ask. rewrite Hr.
    AdapterFacts.run_with Hjson.
    change (EvFetch ask :: EvSleep poll_interval :: polled ask t1 k)
      with (polled ask t1 (S k)).
    rewrite (IH (S k)). f_equal. f_equal. lia.
Qed.

(** X21.  The loop has no bound of its own: against a job that stays in
    progress, the adapter is still pending after any number of rounds,
    having waited the fixed interval and asked for the status once in each;
    it never gives up with an error. *)
Theorem replicate_never_times_out (fuel : nat) :
  ReplicateProvider_generateImage fuel prompt referenceImage apiKey P t0
  = (Pending, polled ask t1 fuel)
  /\ time_slept (polled ask t1 fuel)
     = (poll_interval * N.of_nat fuel + time_slept t0)%N.
Proof.
  split.
  - unfold ReplicateProvider_generateImage.
    rewrite (AdapterFacts.with_key apiKey Hkey).
    destruct Hcreate as (r & Hr & Hok & Hjson).
    AdapterFacts.run_m. fold create. rewrite Hr.
    AdapterFacts.run_with Hok. AdapterFacts.run_with Hjson.
    change (EvFetch create :: t0) with (polled ask t1 0).
    pose proof (poll_stuck fuel 0) as H. cbn [Nat.add] in H.
    unfold bind. now rewrite H.
  - induction fuel as [|fuel IH]; [reflexivity|].
    change (polled ask t1 (S fuel))
      with (EvFetch ask :: EvSleep poll_interval :: polled ask t1 fuel).
    cbn [time_slept fold_right]. fold (time_slept (polled ask t1 fuel)).
    rewrite IH. lia.
Qed.

End Stuck.

Lemma replicate_never_times_out_witness :
  fst (ReplicateProvider_generateImage 50 "prompt" [x01] "token" stuck_platform [])
  = Pending.
Proof.
  refine (f_equal fst
            (proj1 (replicate_never_times_out stuck_platform "prompt" [x01]
                      "token" []
                      (fun _ => [("id", Js.Str "p1"); ("status", Js.Str "processing")])
                      eq_refl _ _ _ 50))).
  - eexists. repeat split; reflexivity.
  - intros i. eexists. split; reflexivity.
  - intros i. reflexivity.
Defined.

End ReplicateMore.

(* ================================================================== *)
(** * The cost of a settled job *)

Module ReplicateCost.
Import Providers Scripts.

Lemma polled_calls (ask : Request) (t : Trace) (n : nat) :
  network_calls (polled ask t n) = n + network_calls t.
Proof.
  induction n as [|n IH]; [reflexivity|].
  change (polled ask t (S n))
    with (EvFetch ask :: EvSleep poll_interval :: polled ask t n).
  cbn [network_calls filter List.length].
  fold (network_calls (polled ask t n)). rewrite IH. reflexivity.
Qed.

Lemma polled_time (ask : Request) (t : Trace) (n : nat) :
  time_slept (polled ask t n) = (poll_interval * N.of_nat n + time_slept t)%N.
Proof.
  induction n as [|n IH]; [reflexivity|].
  change (polled ask t (S n))
    with (EvFetch ask :: EvSleep poll_interval :: polled ask t n).
  cbn [time_slept fold_right]. fold (time_slept (polled ask t n)).
  rewrite IH. lia.
Qed.

Lemma replicate_finish_settles (result : Js.value) (P : Platform) (t : Trace) :
  fst (replicate_finish result P t) <> Pending.
Proof.
  unfold replicate_finish, bind, platform, lift, ret, throw, fetch.
  destruct (Js.prop (Some result) "status") as [e|status]; [cbn; discriminate|].
  cbv beta iota.
  destruct (Js.is_string status "failed").
  - destruct (Js.prop (Some result) "error"); cbn; discriminate.
  - destruct (Js.prop (Some result) "output") as [e|output]; [cbn; discriminate|].
    cbv beta iota.
    destruct (negb (Js.truthy output)); [cbn; discriminate|].
    destruct (Js.prop output "length") as [e|len]; [cbn; discriminate|].
    cbv beta iota.
    destruct (Js.is_zero len); [cbn; discriminate|].
    destruct (Js.first output) as [e|imageUrl]; [cbn; discriminate|].
    cbv beta iota.
    destruct (remote P t _); cbn; discriminate.
Qed.

(** X23.  When the job leaves the in-progress states at the [n]-th status
    request, the adapter has by then waited exactly [n] times the fixed
    interval, and has issued one creation request, [n] status requests and
    at most one download: it does not poll again after a terminal status
    and never retries. *)
Theorem replicate_cost (P : Platform) (prompt : string) (referenceImage : Buffer)
    (apiKey : string) (t0 : Trace) (job : nat -> list (string * Js.value))
    (n fuel : nat) :
  apiKey <> ""%string ->
  let create := replicate_create_request P prompt referenceImage apiKey in
  let ask := replicate_status_request P (Js.lookup "id" (job 0)) apiKey in
  (exists r, remote P t0 create = inr r /\ ok r = true
             /\ body_json r = Some (Js.Obj (job 0))) ->
  (forall i, i < n ->
     exists r, remote P (EvSleep poll_interval
                         :: polled ask (EvFetch create :: t0) i) ask = inr r
               /\ body_json r = Some (Js.Obj (job (S i)))) ->
  (forall i, i < n -> in_progress (Js.lookup "status" (job i)) = true) ->
  in_progress (Js.lookup "status" (job n)) = false ->
  n <= fuel ->
  let run := ReplicateProvider_generateImage fuel prompt referenceImage apiKey P t0 in
  fst run <> Pending
  /\ time_slept (snd run) = (1000 * N.of_nat n + time_slept t0)%N
  /\ network_calls t0 + n + 1 <= network_calls (snd run)
     <= network_calls t0 + n + 2.
Proof.
  intros Hkey create ask Hcreate Hpoll Hbusy Hdone Hfuel run. subst run.
  rewrite (ReplicateFacts.replicate_runs_to_finish P prompt referenceImage apiKey
             t0 job n Hkey Hcreate Hpoll Hbusy Hdone fuel Hfuel).
  fold create. fold ask.
  set (t_n := polled ask (EvFetch create :: t0) n).
  destruct (BudgetFacts.replicate_finish_within (Js.Obj (job n)) P t_n)
    as (added & E & _ & Hcalls & Htime).
  split; [|split].
  - apply replicate_finish_settles.
  - rewrite E, BudgetFacts.time_slept_app. unfold t_n.
    rewrite polled_time. cbn [time_slept fold_right].
    fold (time_slept t0). unfold poll_interval. lia.
  - rewrite E, BudgetFacts.network_calls_app. unfold t_n.
    rewrite polled_calls. cbn [network_calls filter List.length].
    fold (network_calls t0). lia.
Qed.

Lemma replicate_cost_witness :
  time_slept (snd (ReplicateProvider_generateImage 7 "prompt" [x01] "token"
                     (replicate_platform job_succeeded) [])) = 2000%N.
Proof.
  assert (Hkey : "token"%string <> ""%string) by discriminate.
  refine (proj1 (proj2 (replicate_cost (replicate_platform job_succeeded)
                          "prompt" [x01] "token" [] scripted_job 2 7
                          Hkey _ _ _ _ _))).
  - eexists. repeat split; reflexivity.
  - intros i Hi. destruct i as [|[|i]]; [eexists; split; reflexivity ..|lia].
  - intros i Hi. destruct i as [|[|i]]; [reflexivity ..|lia].
  - reflexivity.
  - lia.
Defined.

End ReplicateCost.

(* ================================================================== *)
(** * Further properties of the facade *)

Module EnhancerMore.
Import ImageProcessor Providers Enhancer Scripts.
Local Open Scope string_scope.

(** X24.  Construction succeeds exactly when the provider option is absent,
    empty, or one of the four identities; absent and empty both select
    "nanobanana".  The credential plays no part: an empty one is accepted
    at construction. *)
Theorem constructor_accepts (key : string) (choice : option string) :
  let options := {| options_apiKey := key; options_provider := choice |} in
  ((exists this, new_MerchDesignEnhancer options = inr this)
   <-> choice = None \/ choice = Some "" \/ choice = Some "nanobanana"
       \/ choice = Some "openai" \/ choice = Some "stability"
       \/ choice = Some "replicate")
  /\ (choice = None \/ choice = Some "" ->
      new_MerchDesignEnhancer options
      = inr {| apiKey := key; provider := "nanobanana";
               aiProvider := NanoBananaProvider |})
  /\ (forall this, new_MerchDesignEnhancer options = inr this -> apiKey this = key).
Proof.
  cbv zeta. split; [|split].
  - split.
    + intros [this H]. destruct choice as [p|]; [|now left].
      right. unfold new_MerchDesignEnhancer, createAIProvider in H.
      cbn [options_provider JsString.truthy_opt] in H.
      unfold JsString.truthy_string in H.
      destruct (String.eqb_spec p ""); [subst; now left|]. cbn [negb] in H.
      destruct (String.eqb_spec p "nanobanana"); [subst; tauto|].
      destruct (String.eqb_spec p "openai"); [subst; tauto|].
      destruct (String.eqb_spec p "stability"); [subst; tauto|].
      destruct (String.eqb_spec p "replicate"); [subst; tauto|].
      discriminate H.
    + intros [->|[->|[->|[->|[->| ->]]]]]; eexists; reflexivity.
  - intros [->| ->]; reflexivity.
  - intros this. unfold new_MerchDesignEnhancer.
    destruct (createAIProvider _); [discriminate|].
    intros H. injection H as <-. reflexivity.
Qed.

Lemma constructor_accepts_witness :
  new_MerchDesignEnhancer {| options_apiKey := ""; options_provider := Some "" |}
  = inr {| apiKey := ""; provider := "nanobanana";
           aiProvider := NanoBananaProvider |}.
Proof.
  exact (proj1 (proj2 (constructor_accepts "" (Some ""))) (or_intror eq_refl)).
Defined.

(** X25.  A facade holding the empty credential never reaches the network:
    every call rejects, with the error of the normalization if that fails
    and otherwise with the missing-credential error of its adapter, after
    at most the one file read of the normalization. *)
Theorem empty_credential_never_calls (fuel : nat) (this : MerchDesignEnhancer)
    (options : EnhanceImageOptions) (P : Platform) (t : Trace) :
  apiKey this = "" ->
  let run := enhanceImage fuel this options P t in
  network_calls (snd run) = network_calls t
  /\ (exists e, fst run = Rejected e)
  /\ (forall b t1,
        normalizeImageInput (image options) P t = (Resolved b, t1) ->
        run = (Rejected (Error (missing_key_message (aiProvider this))), t1)).
Proof.
  intros Hkey run. subst run. unfold enhanceImage, bind. rewrite Hkey.
  destruct (NormalizeMore.normalize_effects_lemma (image options) P t)
    as (Hsettled & Hcalls & _).
  destruct (normalizeImageInput (image options) P t) as [[b|e|] t1];
    cbn [fst snd] in *.
  - assert (Hrun : generateImage fuel (aiProvider this)
                     (PromptBuilder.buildPrompt (productType options)
                        (color options) true) b "" P t1
                   = (Rejected (Error (missing_key_message (aiProvider this))), t1))
      by (destruct (aiProvider this); reflexivity).
    rewrite Hrun. cbn [fst snd]. split; [exact Hcalls|]. split; [eauto|].
    intros b' t' H. injection H as <- <-. reflexivity.
  - split; [exact Hcalls|]. split; [eauto|]. intros b' t' H. discriminate H.
  - congruence.
Qed.

Lemma empty_credential_never_calls_witness :
  enhanceImage 0
    {| apiKey := ""; provider := "openai"; aiProvider := OpenAIProvider |}
    {| image := ImgString "iVBORw=="; productType := MUG; color := None |}
    openai_platform []
  = (Rejected (Error openai_missing_key), []).
Proof.
  exact (proj2 (proj2 (empty_credential_never_calls 0
                         {| apiKey := ""; provider := "openai";
                            aiProvider := OpenAIProvider |}
                         {| image := ImgString "iVBORw=="; productType := MUG;
                            color := None |}
                         openai_platform [] eq_refl))
           [x89; x50; x4e; x47] [] eq_refl).
Defined.

(** X26.  Whenever enhanceImage resolves, the reported MIME type is one of
    "image/jpeg", "image/png", "image/gif", "image/webp", and it is the
    type sniffed from the very bytes returned. *)
Theorem resolved_result_is_typed (fuel : nat) (this : MerchDesignEnhancer)
    (options : EnhanceImageOptions) (P : Platform) (t : Trace)
    (result : EnhanceImageResult) :
  fst (enhanceImage fuel this options P t) = Resolved result ->
  mimeType result = detectMimeType (result_image result)
  /\ MimeSniff.known_mime (mimeType result).
Proof.
  unfold enhanceImage, bind.
  destruct (normalizeImageInput (image options) P t) as [[b|e|] t1];
    [|discriminate|discriminate].
  destruct (generateImage _ _ _ _ _ P t1) as [[img|e|] t2];
    [|discriminate|discriminate].
  cbn. intros H. injection H as <-. cbn [mimeType result_image].
  split; [reflexivity|].
  unfold detectMimeType, MimeSniff.detectMimeType, MimeSniff.known_mime.
  repeat match goal with
         | |- context [if ?c then _ else _] => destruct c
         end; tauto.
Qed.

Lemma resolved_result_is_typed_witness :
  mimeType {| result_image := [x89; x50; x4e; x47]; mimeType := "image/png" |}
  = detectMimeType [x89; x50; x4e; x47]
  /\ MimeSniff.known_mime "image/png".
Proof.
  exact (resolved_result_is_typed 0
           {| apiKey := "key"; provider := "nanobanana";
              aiProvider := NanoBananaProvider |}
           {| image := ImgBuffer [x01]; productType := SHIRT; color := Some "red" |}
           gemini_platform []
           {| result_image := [x89; x50; x4e; x47]; mimeType := "image/png" |}
           eq_refl).
Defined.

(** X27.  What goes over the wire with the image-to-image adapter: for a
    binary input, enhanceImage issues exactly one request, whose form
    carries the input bytes unchanged and a prompt that contains the
    design-preservation clause and the display name of the product. *)
Theorem stability_wire (fuel : nat) (key : string) (bytes : Buffer)
    (category : ProductType) (shade : option string) (P : Platform) (t : Trace) :
  JsString.truthy_string key = true ->
  let this := {| apiKey := key; provider := "stability";
                 aiProvider := StabilityAIProvider |} in
  let options := {| image := ImgBuffer bytes; productType := category;
                    color := shade |} in
  exists prompt,
    snd (enhanceImage fuel this options P t)
    = EvFetch {| url := "https://api.stability.ai/v2beta/stable-image/edit/creative";
                 method := "POST";
                 headers := [("Authorization", "Bearer " ++ key)];
                 body := FormData [
                   ("image", FormBlob bytes "image/png" "product.png");
                   ("prompt", FormText prompt);
                   ("mode", FormText "image-to-image");
                   ("strength", FormText "0.7")] |} :: t
    /\ JsString.includes PromptBuilder.design_preservation_clause prompt = true
    /\ JsString.includes (PromptBuilder.getProductName category) prompt = true.
Proof.
  intros Hkey this options.
  exists (PromptBuilder.buildPrompt category shade true).
  split; [|split].
  - unfold enhanceImage. subst this options.
    cbn [image productType color aiProvider apiKey normalizeImageInput
         generateImage].
    unfold StabilityAIProvider_generateImage.
    rewrite (AdapterFacts.with_key key Hkey). AdapterFacts.run_m.
    unfold stability_request.
    destruct (remote P t _) as [e|r]; [reflexivity|].
    destruct (ok r); reflexivity.
  - destruct category; PromptBuilderMore.open_template; StringFacts.find_substring.
  - destruct category; PromptBuilderMore.open_template; cbn [PromptBuilder.getProductName];
      StringFacts.find_substring.
Qed.

Lemma stability_wire_witness :
  exists prompt,
    snd (enhanceImage 0
           {| apiKey := "key"; provider := "stability";
              aiProvider := StabilityAIProvider |}
           {| image := ImgBuffer [x01]; productType := MUG; color := None |}
           unauthorized_platform [])
    = [EvFetch {| url := "https://api.stability.ai/v2beta/stable-image/edit/creative";
                  method := "POST";
                  headers := [("Authorization", "Bearer key")];
                  body := FormData [
                    ("image", FormBlob [x01] "image/png" "product.png");
                    ("prompt", FormText prompt);
                    ("mode", FormText "image-to-image");
                    ("strength", FormText "0.7")] |}]
    /\ JsString.includes PromptBuilder.design_preservation_clause prompt = true
    /\ JsString.includes "ceramic mug" prompt = true.
Proof.
  exact (stability_wire 0 "key" [x01] MUG None unauthorized_platform [] eq_refl).
Defined.

End EnhancerMore.
